(** * Status fetcher of the Hik-Connect integration

    A shallow embedding of [custom_components/hikconnect/api_helper.py]:
    the cloud call-status fetch with its single retry on code 2009, the
    local ISAPI fetch, and the local-first fallback procedure, together
    with the properties the specification states about them.

    Python dictionaries are finite maps ([gmap]); the values decoded from
    JSON are the inductive type [pyval]; exceptions are values of [pyexc]
    carried by the error monad [result]; HTTP requests and the clock are
    events of a small effect tree [prog], run against a [world] that
    answers them and records the requests in a log. *)

From Stdlib Require Import ZArith Ascii String.
From stdpp Require Import gmap strings list fin_maps pretty.

Set Warnings "-register-all".
Local Open Scope Z_scope.

(** ** Python values *)

Module Py.

(** A Python [float] by its exact value: not-a-number, an infinity, or the
    finite dyadic number [m * 2^e]. *)
Inductive pyfloat : Type :=
| FNan
| FInf (negative : bool)
| FFinite (m : Z) (e : Z).

(** The values [json.loads] and [response.json()] can produce. *)
Inductive pyval : Type :=
| PyNone
| PyBool (b : bool)
| PyInt (n : Z)
| PyFloat (f : pyfloat)
| PyStr (s : string)
| PyList (l : list pyval)
| PyDict (d : gmap string pyval).

(** The exceptions of the module, and the builtin ones its code can meet. *)
Inductive pyexc : Type :=
| HikConnectApiError (code message : pyval)
| DeviceOfflineError (code message : pyval)
| DeviceNetworkError (code message : pyval)
| AttributeError
| TypeError
| KeyError
| JSONDecodeError
| TransportError (what : string).

(** A computation that returns or raises. *)
Inductive result (A : Type) : Type :=
| Ok (a : A)
| Raise (e : pyexc).
Arguments Ok {A} a.
Arguments Raise {A} e.

#[global] Instance result_ret : MRet result := fun A a => Ok a.
#[global] Instance result_bind : MBind result := fun A B f m =>
  match m with
  | Ok a => f a
  | Raise e => Raise e
  end.

(** The integer a float is exactly equal to, if there is one. *)
Definition float_exact_int (f : pyfloat) : option Z :=
  match f with
  | FNan | FInf _ => None
  | FFinite m e =>
      if 0 <=? e then Some (m * 2 ^ e)
      else if m mod 2 ^ (- e) =? 0 then Some (m / 2 ^ (- e)) else None
  end.

(** The integer a value compares equal to under Python's [==]:
    [True == 1], [False == 0], [2009.0 == 2009]. *)
Definition as_int (v : pyval) : option Z :=
  match v with
  | PyBool b => Some (if b then 1 else 0)
  | PyInt n => Some n
  | PyFloat f => float_exact_int f
  | _ => None
  end.

(** [v == n] for an [int] literal [n]. *)
Definition eq_int (v : pyval) (n : Z) : bool :=
  match as_int v with
  | Some z => z =? n
  | None => false
  end.

(** Truth value of [v], as in [if v] and [not v]. *)
Definition truthy (v : pyval) : bool :=
  match v with
  | PyNone => false
  | PyBool b => b
  | PyInt n => negb (n =? 0)
  | PyFloat (FFinite m _) => negb (m =? 0)
  | PyFloat _ => true
  | PyStr s => negb (String.eqb s "")
  | PyList l => negb (Nat.eqb (length l) 0)
  | PyDict d => negb (Nat.eqb (size d) 0)
  end.

(** Lists and dictionaries are unhashable: using one as a key raises. *)
Definition hashable (v : pyval) : bool :=
  match v with
  | PyList _ | PyDict _ => false
  | _ => true
  end.

(** [o.get(k, dflt)]; only a [dict] has the method. *)
Definition get (o : pyval) (k : string) (dflt : pyval) : result pyval :=
  match o with
  | PyDict d => Ok (default dflt (d !! k))
  | _ => Raise AttributeError
  end.

(** [needle in hay] on strings: substring test. *)
Fixpoint contains (needle hay : string) : bool :=
  String.prefix needle hay ||
  match hay with
  | EmptyString => false
  | String _ rest => contains needle rest
  end.

(** [k in c] for a string [k]. *)
Definition is_in (k : string) (c : pyval) : result bool :=
  match c with
  | PyDict d => Ok (bool_decide (is_Some (d !! k)))
  | PyStr s => Ok (contains k s)
  | PyList l =>
      Ok (existsb (fun x => match x with PyStr s => String.eqb s k | _ => false end) l)
  | _ => Raise TypeError
  end.

(** [c[k]] for a string [k]. *)
Definition getitem (c : pyval) (k : string) : result pyval :=
  match c with
  | PyDict d =>
      match d !! k with
      | Some v => Ok v
      | None => Raise KeyError
      end
  | PyStr _ | PyList _ => Raise TypeError
  | _ => Raise TypeError
  end.

(** ASCII lower-casing: the letters A to Z are lower-cased and every
    other character is kept. *)
Definition lower_ascii (c : ascii) : ascii :=
  let n := N_of_ascii c in
  if ((65 <=? n) && (n <=? 90))%N then ascii_of_N (n + 32) else c.

Fixpoint lower_str (s : string) : string :=
  match s with
  | EmptyString => EmptyString
  | String c rest => String (lower_ascii c) (lower_str rest)
  end.

(** [s.isascii()].  Text is held as its UTF-8 bytes; it is ASCII when
    every byte is below 128. *)
Fixpoint isascii (s : string) : bool :=
  match s with
  | EmptyString => true
  | String c rest => (N_of_ascii c <? 128)%N && isascii rest
  end.

(** [s.lower()].  On ASCII text it lower-cases the letters A to Z and
    keeps every other character.  On text with other characters it
    lower-cases by the Unicode tables of the runtime, which are not
    modelled: [unicode_lower] stands for them. *)
Definition str_lower (unicode_lower : string -> string) (s : string) : string :=
  if isascii s then lower_str s else unicode_lower s.

(** [v.lower()]; only a [str] has the method. *)
Definition lower (unicode_lower : string -> string) (v : pyval) : result string :=
  match v with
  | PyStr s => Ok (str_lower unicode_lower s)
  | _ => Raise AttributeError
  end.

End Py.
Import Py.

(** ** Effects: HTTP requests and the clock *)

(** What [session.get(url, headers=...)] followed by [response.json()]
    gives: the decoded body, or an exception of the HTTP client. *)
Inductive cloud_reply : Type :=
| CloudFail (what : string)
| CloudJson (res_json : pyval).

(** What [client.get(url, auth=...)] gives: a response with its status code
    and text, or an exception of the HTTP client. *)
Inductive local_reply : Type :=
| LocalFail (what : string)
| LocalResponse (status_code : Z) (text : string).

(** [httpx.DigestAuth(username, password)]. *)
Record digest_auth : Type := DigestAuth {
  auth_username : string;
  auth_password : string
}.

(** The events of the module.  [TimeMillis] stands for
    [int(time.time() * 1000)]. *)
Inductive event : Type -> Type :=
| SessionGet (url : string) (headers : gmap string string) : event cloud_reply
| ClientGet (url : string) (auth : option digest_auth) : event local_reply
| TimeMillis : event Z.

(** A program: a tree of events, each followed by the rest of the program
    as a function of the answer. *)
Inductive prog (A : Type) : Type :=
| Ret (a : A)
| Vis (X : Type) (e : event X) (k : X -> prog A).
Arguments Ret {A} a.
Arguments Vis {A X} e k.

Fixpoint prog_bind {A B : Type} (m : prog A) (f : A -> prog B) : prog B :=
  match m with
  | Ret a => f a
  | Vis e k => Vis e (fun x => prog_bind (k x) f)
  end.

Definition trigger {X : Type} (e : event X) : prog X := Vis e Ret.

(** A program that may raise: the [async def] functions of the module. *)
Definition task (A : Type) : Type := prog (result A).

#[global] Instance task_ret : MRet task := fun A a => Ret (Ok a).
#[global] Instance task_bind : MBind task := fun A B f m =>
  prog_bind m (fun r =>
    match r with
    | Ok a => f a
    | Raise e => Ret (Raise e)
    end).

(** A pure computation inside a task, and an event inside a task. *)
Definition lift {A : Type} (r : result A) : task A := Ret r.
Definition perform {X : Type} (e : event X) : task X :=
  Vis e (fun x => Ret (Ok x)).

(** ** The world that answers *)

(** An HTTP request as the log records it. *)
Inductive request : Type :=
| CloudRequest (url : string) (headers : gmap string string)
| LocalRequest (url : string) (auth : option digest_auth).

Definition is_cloud_request (r : request) : bool :=
  match r with
  | CloudRequest _ _ => true
  | LocalRequest _ _ => false
  end.

(** The cloud service, the device on the local network and the clock.
    Each answer may depend on the requests made so far. *)
Record world : Type := World {
  cloud_service : list request -> string -> gmap string string -> cloud_reply;
  local_device : list request -> string -> option digest_auth -> local_reply;
  clock_millis : list request -> Z
}.

(** The answer to one event, and the log after it. *)
Definition answer (w : world) (log : list request) {X : Type} (e : event X)
  : X * list request :=
  match e in event T return T * list request with
  | SessionGet url headers =>
      (cloud_service w log url headers, log ++ [CloudRequest url headers])
  | ClientGet url auth =>
      (local_device w log url auth, log ++ [LocalRequest url auth])
  | TimeMillis => (clock_millis w log, log)
  end.

(** Running a program: its value and the log of the requests it issued. *)
Fixpoint run {A : Type} (p : prog A) (w : world) (log : list request)
  : A * list request :=
  match p with
  | Ret a => (a, log)
  | Vis e k => let '(x, log') := answer w log e in run (k x) w log'
  end.

(** ** The module [api_helper] *)

(** The dictionary [{"status": ..., "info": ...}] the fetch functions return. *)
Record fetch_result : Type := FetchResult {
  status : string;
  info : gmap string pyval
}.

(** The [HikConnect] instance, as far as the module reads it:
    [api.BASE_URL] and [api.client._default_headers]. *)
Record hikconnect : Type := HikConnect {
  BASE_URL : string;
  client_default_headers : gmap string string
}.

Definition CALL_STATUS_MAPPING : gmap Z string :=
  {[ 1 := "idle"; 2 := "ringing"; 3 := "call in progress" ]}.

(** In the order of the dictionary literal, which is the order
    [CALL_INFO_MAPPING.items()] iterates in. *)
Definition CALL_INFO_MAPPING : list (string * string) :=
  [ ("buildingNo", "building_number");
    ("floorNo", "floor_number");
    ("zoneNo", "zone_number");
    ("unitNo", "unit_number");
    ("devNo", "device_number");
    ("devType", "device_type");
    ("lockNum", "lock_number") ].

(** [CALL_STATUS_MAPPING.get(key, dflt)]: the keys are integers, a key is
    found when it is equal to one of them, and an unhashable key raises. *)
Definition call_status_mapping_get (key : pyval) (dflt : string) : result string :=
  if hashable key
  then Ok (default dflt (as_int key ≫= fun z => CALL_STATUS_MAPPING !! z))
  else Raise TypeError.

(** The dictionary literal [headers] of [_get_headers]. *)
Definition base_headers (session_id : string) : gmap string string :=
  {[ "clientType" := "55";
     "lang" := "en-US";
     "featureCode" := "deadbeef";
     "sessionId" := session_id;
     "Content-Type" := "application/json";
     "Accept" := "application/json" ]}.

(** [headers.update({"User-Agent": ..., "X-Timestamp": str(now)})]. *)
Definition update_extra (headers : gmap string string) (now : Z)
  : gmap string string :=
  <["X-Timestamp" := pretty now]>
    (<["User-Agent" := "Hik-Connect/5.0.0 (Android)"]> headers).

(** [_get_headers(session_id, include_extra)]. *)
Definition _get_headers (session_id : string) (include_extra : bool)
  : task (gmap string string) :=
  let headers := base_headers session_id in
  if include_extra then
    now ← perform TimeMillis;
    mret (update_extra headers now)
  else mret headers.

(** [async with session.get(url, headers=headers) as response:
       res_json = await response.json()]. *)
Definition session_get_json (url : string) (headers : gmap string string)
  : task pyval :=
  reply ← perform (SessionGet url headers);
  match reply with
  | CloudFail what => lift (Raise (TransportError what))
  | CloudJson res_json => mret res_json
  end.

(** [f"{base_url}/v3/devconfig/v1/call/{device_serial}/status"]. *)
Definition call_status_url (base_url device_serial : string) : string :=
  base_url +:+ "/v3/devconfig/v1/call/" +:+ device_serial +:+ "/status".

(** [f"http://{local_ip}/ISAPI/VideoIntercom/callStatus"]. *)
Definition isapi_url (local_ip : string) : string :=
  "http://" +:+ local_ip +:+ "/ISAPI/VideoIntercom/callStatus".

(** [HikConnectApiError(0, "No data in response")]. *)
Definition no_data : pyexc :=
  HikConnectApiError (PyInt 0) (PyStr "No data in response").

(** [HikConnectApiError(0, "No session ID available - not logged in")]. *)
Definition not_logged_in : pyexc :=
  HikConnectApiError (PyInt 0) (PyStr "No session ID available - not logged in").

(** [httpx.DigestAuth(username, password) if password else None]. *)
Definition isapi_auth (username password : string) : option digest_auth :=
  if truthy (PyStr password) then Some (DigestAuth username password) else None.

(** The three lines that read the envelope, at both places they stand:
    [meta = res_json.get("meta", {})], [code = meta.get("code", 0)],
    [message = meta.get("message", "Unknown error")]. *)
Definition envelope_meta (res_json : pyval) : result (pyval * pyval) :=
  meta ← get res_json "meta" (PyDict ∅);
  code ← get meta "code" (PyInt 0);
  message ← get meta "message" (PyStr "Unknown error");
  mret (code, message).

Section ApiHelper.

(** [json.loads] of the standard library: the decoded value, or [None] for
    [json.JSONDecodeError]. *)
Variable json_loads : string -> option pyval.

(** The lower-casing of [str.lower] on text that is not ASCII. *)
Variable unicode_lower : string -> string.

Definition loads (s : string) : result pyval :=
  match json_loads s with
  | Some v => Ok v
  | None => Raise JSONDecodeError
  end.

(** The payload of a response: lines 110 to 114 of
    [_parse_call_status_response]. *)
Definition response_data (res_json : pyval) : result pyval :=
  data_str ← get res_json "data" PyNone;
  if negb (truthy data_str)
  then Raise no_data
  else
    match data_str with
    | PyStr s => loads s
    | _ => Ok data_str
    end.

(** The loop over [CALL_INFO_MAPPING.items()]. *)
Fixpoint map_caller_info (items : list (string * string)) (caller_info : pyval)
    (info : gmap string pyval) : result (gmap string pyval) :=
  match items with
  | [] => Ok info
  | (in_key, out_key) :: rest =>
      present ← is_in in_key caller_info;
      if (present : bool) then
        v ← getitem caller_info in_key;
        map_caller_info rest caller_info (<[out_key := v]> info)
      else map_caller_info rest caller_info info
  end.

(** [_parse_call_status_response(res_json)]; the warning it logs for an
    unknown nonzero code changes nothing. *)
Definition _parse_call_status_response (res_json : pyval) : result fetch_result :=
  data ← response_data res_json;
  call_status_code ← get data "callStatus" (PyInt 0);
  status ← call_status_mapping_get call_status_code "unknown";
  caller_info ← get data "callerInfo" (PyDict ∅);
  info ← map_caller_info CALL_INFO_MAPPING caller_info ∅;
  mret {| status := status; info := info |}.

(** [get_call_status_custom(session, base_url, session_id, device_serial)]. *)
Definition get_call_status_custom (base_url session_id device_serial : string)
  : task fetch_result :=
  let url := call_status_url base_url device_serial in
  headers ← _get_headers session_id false;
  res_json ← session_get_json url headers;
  '(code, message) ← lift (envelope_meta res_json);
  if eq_int code 2003 then lift (Raise (DeviceOfflineError code message))
  else
    '(res_json, code, message) ←
      (if eq_int code 2009 then
         headers_extra ← _get_headers session_id true;
         res_json ← session_get_json url headers_extra;
         '(code, message) ← lift (envelope_meta res_json);
         if eq_int code 2009 then lift (Raise (DeviceNetworkError code message))
         else mret (res_json, code, message)
       else mret (res_json, code, message));
    if negb (eq_int code 200) then lift (Raise (HikConnectApiError code message))
    else lift (_parse_call_status_response res_json).

(** The text fallback of [get_call_status_isapi]: keyword matching on the
    lower-cased body, in the order of the [if] / [elif] chain.  The
    keywords are ASCII, and the Unicode tables give an ASCII letter for a
    character that is not ASCII in two cases only, k for the Kelvin sign
    and i followed by a combining dot for the dotted capital I, neither of
    which completes a keyword: a keyword is in [text.lower()] exactly when
    it is in the text with its letters A to Z lower-cased. *)
Definition isapi_text_status (text : string) : string :=
  let text_lower := lower_str text in
  if contains "idle" text_lower then "idle"
  else if contains "ringing" text_lower then "ringing"
  else if contains "ongoing" text_lower || contains "in progress" text_lower
       then "call in progress"
  else "unknown".

(** The inner [try] of [get_call_status_isapi]: [Ok (Some r)] when it
    returns [r], [Ok None] when control leaves it without returning (no
    recognised key, or [json.JSONDecodeError] caught), [Raise e] for any
    other exception. *)
Definition isapi_json_status (text : string) : result (option fetch_result) :=
  match json_loads text with
  | None => Ok None
  | Some data =>
      has_call_status ← is_in "CallStatus" data;
      if (has_call_status : bool) then
        call_status ← getitem data "CallStatus";
        field ← get call_status "status" (PyStr "unknown");
        status ← lower unicode_lower field;
        mret (Some {| status := status; info := ∅ |})
      else
        has_status ← is_in "status" data;
        if (has_status : bool) then
          field ← getitem data "status";
          status ← lower unicode_lower field;
          mret (Some {| status := status; info := ∅ |})
        else mret None
  end.

(** The branch [if response.status_code == 200] of [get_call_status_isapi]. *)
Definition isapi_ok_body (text : string) : result fetch_result :=
  found ← isapi_json_status text;
  match found with
  | Some r => Ok r
  | None => Ok {| status := isapi_text_status text; info := ∅ |}
  end.

(** [get_call_status_isapi(local_ip, username, password)]: the result
    dictionary, or [None].  The outer [except Exception] turns every
    exception into [None]. *)
Definition get_call_status_isapi (local_ip username password : string)
  : prog (option fetch_result) :=
  let url := isapi_url local_ip in
  let auth := isapi_auth username password in
  prog_bind (trigger (ClientGet url auth)) (fun reply =>
    match reply with
    | LocalFail _ => Ret None
    | LocalResponse status_code text =>
        if status_code =? 200 then
          match isapi_ok_body text with
          | Ok r => Ret (Some r)
          | Raise _ => Ret None
          end
        else if status_code =? 404 then Ret None
        else Ret None
    end).

(** The cloud step of [get_call_status_with_fallback]: lines 300 to 313. *)
Definition cloud_fallback (api : hikconnect) (device_serial : string)
  : task fetch_result :=
  let base_url := BASE_URL api in
  let session_id := client_default_headers api !! "sessionId" in
  match session_id with
  | Some sid =>
      if negb (truthy (PyStr sid))
      then lift (Raise not_logged_in)
      else get_call_status_custom base_url sid device_serial
  | None => lift (Raise not_logged_in)
  end.

(** [get_call_status_with_fallback(api, device_serial, local_ip,
    local_password)].  A result dictionary is never empty, so [if result]
    holds exactly when the local step did not return [None]. *)
Definition get_call_status_with_fallback (api : hikconnect)
    (device_serial local_ip local_password : string) : task fetch_result :=
  if truthy (PyStr local_ip) && truthy (PyStr local_password) then
    prog_bind (get_call_status_isapi local_ip "admin" local_password) (fun result =>
      match result with
      | Some r => Ret (Ok r)
      | None => cloud_fallback api device_serial
      end)
  else cloud_fallback api device_serial.

End ApiHelper.

(** ** A reference JSON decoder

    [json.loads] belongs to the standard library and is a parameter of the
    model.  The examples need a decoder to run: [Json.decode] reads the
    JSON texts made of objects, arrays, strings without escapes, integers
    and the literals, and returns on them the value [json.loads] returns
    ([None] where it raises).  Texts with escapes, fractions or exponents
    are outside what it reads. *)

Module Json.

Definition dquote : ascii := "034"%char.

(** A string between double quotes. *)
Definition quoted (s : string) : string :=
  String dquote s +:+ String dquote EmptyString.

Definition is_ws (c : ascii) : bool :=
  match c with
  | " "%char | "009"%char | "010"%char | "013"%char => true
  | _ => false
  end.

Fixpoint skip_ws (s : string) : string :=
  match s with
  | String c rest => if is_ws c then skip_ws rest else s
  | EmptyString => s
  end.

Definition digit_value (c : ascii) : option Z :=
  let n := N_of_ascii c in
  if ((48 <=? n) && (n <=? 57))%N then Some (Z.of_N n - 48) else None.

(** The characters of a string up to its closing quote. *)
Fixpoint read_string (s : string) : option (string * string) :=
  match s with
  | EmptyString => None
  | String c rest =>
      if Ascii.eqb c dquote then Some (EmptyString, rest)
      else if Ascii.eqb c "\"%char || (N_of_ascii c <? 32)%N then None
      else '(body, rest') ← read_string rest; Some (String c body, rest')
  end.

Fixpoint read_digits (s : string) (acc : Z) : Z * string :=
  match s with
  | String c rest =>
      match digit_value c with
      | Some d => read_digits rest (10 * acc + d)
      | None => (acc, s)
      end
  | EmptyString => (acc, s)
  end.

(** An integer without sign: [0], or digits that do not start with [0]. *)
Definition read_natural (s : string) : option (Z * string) :=
  match s with
  | String c rest =>
      match digit_value c with
      | Some 0 => Some (0, rest)
      | Some d => Some (read_digits rest d)
      | None => None
      end
  | EmptyString => None
  end.

(** The text goes on as a fraction or an exponent. *)
Definition float_follows (s : string) : bool :=
  match s with
  | String c _ => Ascii.eqb c "." || Ascii.eqb c "e" || Ascii.eqb c "E"
  | EmptyString => false
  end.

Definition read_number (negative : bool) (s : string) : option (pyval * string) :=
  '(n, rest) ← read_natural s;
  if float_follows rest then None
  else Some (PyInt (if negative then - n else n), rest).

(** [s] without the prefix [p]. *)
Fixpoint strip_prefix (p s : string) : option string :=
  match p, s with
  | EmptyString, _ => Some s
  | String a p', String b s' => if Ascii.eqb a b then strip_prefix p' s' else None
  | String _ _, EmptyString => None
  end.

Definition read_literal (s : string) : option (pyval * string) :=
  match strip_prefix "null" s with Some rest => Some (PyNone, rest) | None =>
  match strip_prefix "true" s with Some rest => Some (PyBool true, rest) | None =>
  match strip_prefix "false" s with Some rest => Some (PyBool false, rest) | None =>
  match strip_prefix "NaN" s with Some rest => Some (PyFloat FNan, rest) | None =>
  match strip_prefix "Infinity" s with
  | Some rest => Some (PyFloat (FInf false), rest)
  | None =>
  match strip_prefix "-Infinity" s with
  | Some rest => Some (PyFloat (FInf true), rest)
  | None => None
  end end end end end end.

Fixpoint read_value (fuel : nat) (s : string) : option (pyval * string) :=
  match fuel with
  | O => None
  | S fuel' =>
      match skip_ws s with
      | String "{" rest =>
          match skip_ws rest with
          | String "}" rest' => Some (PyDict ∅, rest')
          | _ => read_members fuel' rest ∅
          end
      | String "[" rest =>
          match skip_ws rest with
          | String "]" rest' => Some (PyList [], rest')
          | _ => read_elements fuel' rest []
          end
      | String "-" rest =>
          match read_number true rest with
          | Some r => Some r
          | None => read_literal (String "-" rest)
          end
      | String c rest =>
          if Ascii.eqb c dquote
          then '(body, rest') ← read_string rest; Some (PyStr body, rest')
          else
            match read_number false (String c rest) with
            | Some r => Some r
            | None => read_literal (String c rest)
            end
      | EmptyString => None
      end
  end
with read_elements (fuel : nat) (s : string) (acc : list pyval)
  : option (pyval * string) :=
  match fuel with
  | O => None
  | S fuel' =>
      '(v, rest) ← read_value fuel' s;
      match skip_ws rest with
      | String "," rest' => read_elements fuel' rest' (acc ++ [v])
      | String "]" rest' => Some (PyList (acc ++ [v]), rest')
      | _ => None
      end
  end
with read_members (fuel : nat) (s : string) (acc : gmap string pyval)
  : option (pyval * string) :=
  match fuel with
  | O => None
  | S fuel' =>
      match skip_ws s with
      | String c rest =>
          if Ascii.eqb c dquote then
            '(key, rest1) ← read_string rest;
            match skip_ws rest1 with
            | String ":" rest2 =>
                '(v, rest3) ← read_value fuel' rest2;
                match skip_ws rest3 with
                | String "," rest4 => read_members fuel' rest4 (<[key := v]> acc)
                | String "}" rest4 => Some (PyDict (<[key := v]> acc), rest4)
                | _ => None
                end
            | _ => None
            end
          else None
      | EmptyString => None
      end
  end.

(** A whole text: one value, and only blanks after it. *)
Definition decode (s : string) : option pyval :=
  '(v, rest) ← read_value (2 * String.length s + 2) s;
  match skip_ws rest with
  | EmptyString => Some v
  | String _ _ => None
  end.

End Json.

(** ** The vocabulary of the specification *)

(** The Status enumeration: idle, ringing, call-in-progress, unknown. *)
Definition STATUS : list string :=
  ["idle"; "ringing"; "call in progress"; "unknown"].

(** The code table in the words of the specification: 1 is idle, 2 is
    ringing, 3 is call-in-progress, anything else is unknown. *)
Definition status_of_code (n : Z) : string :=
  if n =? 1 then "idle"
  else if n =? 2 then "ringing"
  else if n =? 3 then "call in progress"
  else "unknown".

(** The data field is missing or empty: [res_json.get("data")] is falsy. *)
Definition without_data (res_json : pyval) : Prop :=
  ∃ data_str, get res_json "data" PyNone = Ok data_str ∧ truthy data_str = false.

(** No session identifier is available: [_default_headers.get("sessionId")]
    is [None] or the empty string. *)
Definition no_session (api : hikconnect) : Prop :=
  client_default_headers api !! "sessionId" = None
  ∨ client_default_headers api !! "sessionId" = Some EmptyString.

(** The two JSON bodies the specification names for the local fetch: a
    nested status [Idle] under [CallStatus], and a flat status [RINGING]. *)
Definition body_nested_idle : string :=
  "{" +:+ Json.quoted "CallStatus" +:+ ":{" +:+ Json.quoted "status" +:+ ":"
      +:+ Json.quoted "Idle" +:+ "}}".

Definition body_flat_ringing : string :=
  "{" +:+ Json.quoted "status" +:+ ":" +:+ Json.quoted "RINGING" +:+ "}".

(** ** Sample data for the examples *)

Module Sample.

Definition api : hikconnect :=
  HikConnect "https://api.hik-connect.com" {[ "sessionId" := "0123abcd" ]}.

(** Before login: no session identifier among the default headers. *)
Definition api_logged_out : hikconnect :=
  HikConnect "https://api.hik-connect.com" ∅.

Definition serial : string := "Q12345678".
Definition local_ip : string := "192.168.1.64".
Definition local_password : string := "secret".

(** A world with a fixed answer of the device, the answers of the cloud
    service in the order of the cloud requests, and a fixed clock. *)
Definition scripted (device : local_reply) (cloud : list cloud_reply) (now : Z)
  : world :=
  {| cloud_service := λ log _ _,
       default (CloudFail "no answer")
         (cloud !! length (List.filter is_cloud_request log));
     local_device := λ _ _ _, device;
     clock_millis := λ _, now |}.

Definition envelope (code : Z) (message : string) : gmap string pyval :=
  {[ "meta" := PyDict {[ "code" := PyInt code; "message" := PyStr message ]} ]}.

Definition offline : pyval := PyDict (envelope 2003 "Device offline").
Definition network_abnormal : pyval :=
  PyDict (envelope 2009 "Device network abnormal").

(** The payload as the cloud sends it: a JSON text. *)
Definition payload_text : string :=
  "{" +:+ Json.quoted "callStatus" +:+ ":2,"
      +:+ Json.quoted "callerInfo" +:+ ":{"
      +:+ Json.quoted "buildingNo" +:+ ":1,"
      +:+ Json.quoted "floorNo" +:+ ":3,"
      +:+ Json.quoted "devType" +:+ ":" +:+ Json.quoted "outdoor"
      +:+ "}}".

Definition payload : pyval :=
  PyDict {[ "callStatus" := PyInt 2;
            "callerInfo" := PyDict {[ "buildingNo" := PyInt 1;
                                      "floorNo" := PyInt 3;
                                      "devType" := PyStr "outdoor" ]} ]}.

Definition ok : pyval := PyDict (<["data" := PyStr payload_text]> (envelope 200 "OK")).
Definition ok_without_data : pyval :=
  PyDict (<["data" := PyStr EmptyString]> (envelope 200 "OK")).

Definition ringing : fetch_result :=
  {| status := "ringing";
     info := {[ "building_number" := PyInt 1;
                "floor_number" := PyInt 3;
                "device_type" := PyStr "outdoor" ]} |}.

(** Bodies of the device. *)
Definition body_ongoing : string :=
  "{" +:+ Json.quoted "status" +:+ ":" +:+ Json.quoted "Ongoing" +:+ "}".
Definition body_status_number : string :=
  "{" +:+ Json.quoted "status" +:+ ":5}".
Definition body_html : string := "<html>Unauthorized</html>".
Definition body_xml_ringing : string := "<CallStatus><status>Ringing</status></CallStatus>".
Definition body_xml_both : string :=
  "<CallStatus><status>ringing</status><lastStatus>idle</lastStatus></CallStatus>".

Definition first_request : request :=
  CloudRequest (call_status_url (BASE_URL api) serial) (base_headers "0123abcd").
Definition local_request : request :=
  LocalRequest (isapi_url local_ip) (Some (DigestAuth "admin" local_password)).

End Sample.

(** ** The module [api_helper]: the other functions *)

Definition CALL_STATUS_ENDPOINTS : list string :=
  [ "/v3/devconfig/v1/call/{serial}/status";
    "/v3/userdevices/v1/devices/{serial}/call/status";
    "/api/v3/devconfig/v1/call/{serial}/status" ].

(** [f"{base_url}/v3/userdevices/v1/resources/pagelist"]. *)
Definition pagelist_url (base_url : string) : string :=
  base_url +:+ "/v3/userdevices/v1/resources/pagelist".

(** [o.keys()]; only a [dict] has the method. *)
Definition dict_keys (o : pyval) : result (list string) :=
  match o with
  | PyDict d => Ok (map_to_list d).*1
  | _ => Raise AttributeError
  end.

Section Endpoints.

(** [endpoint.format(serial=device_serial)] of the builtin [str.format]:
    the formatted text, or the exception it raises. *)
Variable str_format_serial : string -> string -> result string.

(** What [_try_endpoint] does with a response: [meta = res_json.get("meta",
    {})], [code = meta.get("code", 0)], and the response itself if the
    code is 200, [None] otherwise. *)
Definition found_if_200 (res_json : pyval) : result (option pyval) :=
  meta ← get res_json "meta" (PyDict ∅);
  code ← get meta "code" (PyInt 0);
  if eq_int code 200 then Ok (Some res_json) else Ok None.

(** The body of the [try] of [_try_endpoint]. *)
Definition try_endpoint_body (url : string) (headers : gmap string string)
  : task (option pyval) :=
  res_json ← session_get_json url headers;
  lift (found_if_200 res_json).

(** [_try_endpoint(session, base_url, endpoint, session_id, device_serial,
    use_extra_headers)].  The URL and the headers are made before the
    [try]; [except Exception] turns every exception of its body into
    [None]. *)
Definition _try_endpoint (base_url endpoint session_id device_serial : string)
    (use_extra_headers : bool) : task (option pyval) :=
  formatted ← lift (str_format_serial endpoint device_serial);
  let url := base_url +:+ formatted in
  headers ← _get_headers session_id use_extra_headers;
  prog_bind (try_endpoint_body url headers) (fun outcome =>
    match outcome with
    | Ok found => Ret (Ok found)
    | Raise _ => Ret (Ok None)
    end).

End Endpoints.

(** The body of the [try] of [get_device_connection_info].  The keys of
    the response are listed for the debug message before anything else is
    read. *)
Definition connection_info_body (url : string) (headers : gmap string string)
  : task pyval :=
  res_json ← session_get_json url headers;
  _ ← lift (dict_keys res_json);
  connection_infos ← lift (get res_json "connectionInfos" (PyDict ∅));
  mret connection_infos.

(** [get_device_connection_info(session, base_url, session_id)]:
    [except Exception] returns the empty dictionary. *)
Definition get_device_connection_info (base_url session_id : string)
  : task pyval :=
  headers ← _get_headers session_id false;
  let url := pagelist_url base_url in
  prog_bind (connection_info_body url headers) (fun outcome =>
    match outcome with
    | Ok connection_infos => Ret (Ok connection_infos)
    | Raise _ => Ret (Ok (PyDict ∅))
    end).

(** A reference for [str.format] with the one keyword [serial]: it reads
    the templates whose braces are all fields [{serial}], and returns on
    them the text [str.format] returns.  Templates with other fields,
    doubled braces, conversions or format specifications are outside what
    it reads: it answers [KeyError] on all of them, which is what
    [str.format] raises for a field of another name only. *)
Module Format.

Fixpoint format_fuel (fuel : nat) (template serial : string) : result string :=
  match fuel, template with
  | _, EmptyString => Ok EmptyString
  | O, String _ _ => Raise KeyError
  | S fuel', String c rest =>
      if Ascii.eqb c "{" then
        match Json.strip_prefix "serial}" rest with
        | Some rest' =>
            tail ← format_fuel fuel' rest' serial; Ok (serial +:+ tail)
        | None => Raise KeyError
        end
      else if Ascii.eqb c "}" then Raise KeyError
      else tail ← format_fuel fuel' rest serial; Ok (String c tail)
  end.

Definition format_serial (template serial : string) : result string :=
  format_fuel (String.length template) template serial.

End Format.

(** ** The module [sensor] *)

Module Sensor.

(** [CallStatusSensor._attr_options]. *)
Definition ATTR_OPTIONS : list string :=
  ["idle"; "ringing"; "ongoing"; "call in progress"].

(** A [CallStatusSensor]: the attributes [__init__] sets.  [hass] tells
    whether [self._hass] is a [HomeAssistant] instance or [None]. *)
Record entity : Type := Entity {
  api : hikconnect;
  device_info : gmap string pyval;
  local_ip : string;
  local_password : string;
  hass : bool;
  attr_available : bool;
  attr_native_value : option string;
  attr_extra_state_attributes : gmap string pyval;
  last_error : option string;
  previous_status : option string
}.

(** [CallStatusSensor.__init__]. *)
Definition init (api : hikconnect) (device_info : gmap string pyval)
    (local_ip local_password : string) (hass : bool) : entity :=
  {| api := api; device_info := device_info;
     local_ip := local_ip; local_password := local_password; hass := hass;
     attr_available := false; attr_native_value := None;
     attr_extra_state_attributes := ∅;
     last_error := None; previous_status := None |}.

(** What [await asyncio.wait_for(get_call_status_with_fallback(...), ...)]
    gives to [async_update]: the result of the fetch, or an exception, by
    the [except] clause that catches it. *)
Inductive awaited : Type :=
| Returned (res : fetch_result)
| RaisedDeviceNetworkError (code message : pyval)
| RaisedDeviceOfflineError (code message : pyval)
| RaisedHikConnectApiError (code message : pyval)
| RaisedTimeoutError
| RaisedClientError (text : string)
| RaisedException (type_name text : string).

(** A call of [_LOGGER.debug] or [_LOGGER.warning]: the level, the
    message and its arguments. *)
Inductive level : Type := DEBUG | WARNING.

Inductive log_arg : Type :=
| ArgValue (v : pyval)
| ArgText (s : string).

Record log_record : Type := LogRecord {
  log_level : level;
  log_msg : string;
  log_args : list log_arg
}.

(** A call of [hass.bus.async_fire]: the event type and the event data. *)
Record bus_event : Type := BusEvent {
  event_type : string;
  event_data : gmap string pyval
}.

(** The state after a failed update: [self._attr_available = False], and
    the error remembered in [self._last_error]. *)
Definition failed (s : entity) (error : option string) : entity :=
  {| api := api s; device_info := device_info s;
     local_ip := local_ip s; local_password := local_password s;
     hass := hass s;
     attr_available := false;
     attr_native_value := attr_native_value s;
     attr_extra_state_attributes := attr_extra_state_attributes s;
     last_error := error; previous_status := previous_status s |}.

(** The state after a successful update: lines 97 to 100, with the
    previous status as the event block left it. *)
Definition updated (s : entity) (res : fetch_result) (previous : option string)
  : entity :=
  {| api := api s; device_info := device_info s;
     local_ip := local_ip s; local_password := local_password s;
     hass := hass s;
     attr_available := true;
     attr_native_value := Some (status res);
     attr_extra_state_attributes := info res;
     last_error := None; previous_status := previous |}.

(** The device info has the three keys an update reads. *)
Definition complete (s : entity) (id serial name : pyval) : Prop :=
  device_info s !! "id" = Some id
  ∧ device_info s !! "serial" = Some serial
  ∧ device_info s !! "name" = Some name.

(** [CallStatusSensor.icon]. *)
Definition icon (s : entity) : string :=
  match attr_native_value s with
  | Some v =>
      if String.eqb v "idle" then "mdi:phone-hangup"
      else if String.eqb v "ringing" then "mdi:phone-ring"
      else if String.eqb v "call in progress" || String.eqb v "ongoing"
           then "mdi:phone-in-talk"
      else "mdi:phone-alert"
  | None => "mdi:phone-alert"
  end.

Section Entity.

(** [DOMAIN] of the module [const]. *)
Variable DOMAIN : string.

(** The text of a value in an f-string: the builtin [format]. *)
Variable format_value : pyval -> string.

(** [str(e)] for the exceptions of [api_helper]:
    [super().__init__(f"API error {code}: {message}")]. *)
Definition exception_text (code message : pyval) : string :=
  "API error " +:+ format_value code +:+ ": " +:+ format_value message.

(** The warning of the clause [except Exception]. *)
Definition unexpected (serial : pyval) (type_name text : string) : log_record :=
  LogRecord WARNING "Unexpected error updating call status for %s: %s: %s"
    [ArgValue serial; ArgText type_name; ArgText text].

(** The events of a status change: lines 82 to 93. *)
Definition status_events (id serial name : pyval) (new_status : string)
    (previous : option string) : list bus_event :=
  let event_data : gmap string pyval :=
    {[ "device_id" := id;
       "device_serial" := serial;
       "device_name" := name;
       "status" := PyStr new_status;
       "previous_status" := from_option PyStr PyNone previous ]} in
  BusEvent (DOMAIN +:+ "_call_status_changed") event_data ::
  (if String.eqb new_status "ringing"
   then [BusEvent (DOMAIN +:+ "_doorbell_ringing") event_data]
   else []).

(** [CallStatusSensor.async_update], after the [await]: the new state, the
    events fired and the messages logged.  Without a serial in the device
    info the [await] is not reached: the lookup raises KeyError, and so
    does the clause [except Exception] that catches it, when it looks the
    serial up for its message. *)
Definition async_update (s : entity) (outcome : awaited)
  : result (entity * list bus_event * list log_record) :=
  serial ← getitem (PyDict (device_info s)) "serial";
  match outcome with
  | Returned res =>
      let new_status := status res in
      if hass s && negb (bool_decide (previous_status s = Some new_status)) then
        match device_info s !! "id", device_info s !! "name" with
        | Some id, Some name =>
            Ok (updated s res (Some new_status),
                status_events id serial name new_status (previous_status s),
                [])
        | None, _ =>
            Ok (failed s (last_error s), [],
                [unexpected serial "KeyError" "'id'"])
        | Some _, None =>
            Ok (failed s (last_error s), [],
                [unexpected serial "KeyError" "'name'"])
        end
      else Ok (updated s res (previous_status s), [], [])
  | RaisedDeviceNetworkError code message =>
      if bool_decide (last_error s = Some "2009")
      then Ok (failed s (last_error s), [], [])
      else
        Ok (failed s (Some "2009"), [],
            [LogRecord WARNING
               "Call status unavailable for %s: %s (this is a known API issue)"
               [ArgValue serial; ArgValue message]])
  | RaisedDeviceOfflineError code message =>
      if bool_decide (last_error s = Some (exception_text code message))
      then Ok (failed s (last_error s), [], [])
      else
        Ok (failed s (Some (exception_text code message)), [],
            [LogRecord DEBUG "Device %s is offline" [ArgValue serial]])
  | RaisedHikConnectApiError code message =>
      if bool_decide (last_error s = Some (exception_text code message))
      then Ok (failed s (last_error s), [], [])
      else
        Ok (failed s (Some (exception_text code message)), [],
            [LogRecord WARNING "API error for %s: code=%d, message=%s"
               [ArgValue serial; ArgValue code; ArgValue message]])
  | RaisedTimeoutError =>
      Ok (failed s (last_error s), [],
          [LogRecord DEBUG "Timeout getting call status for %s" [ArgValue serial]])
  | RaisedClientError text =>
      Ok (failed s (last_error s), [],
          [LogRecord DEBUG "Network error getting call status: %s" [ArgText text]])
  | RaisedException type_name text =>
      Ok (failed s (last_error s), [], [unexpected serial type_name text])
  end.

(** The polls of the platform: one [async_update] after the other, with
    the last state and all events and messages in their order. *)
Fixpoint async_updates (s : entity) (outcomes : list awaited)
  : result (entity * list bus_event * list log_record) :=
  match outcomes with
  | [] => Ok (s, [], [])
  | outcome :: rest =>
      '(s1, events1, logs1) ← async_update s outcome;
      '(s2, events2, logs2) ← async_updates s1 rest;
      Ok (s2, events1 ++ events2, logs1 ++ logs2)
  end.

(** [CallStatusSensor.unique_id]: ["-".join((DOMAIN, id, "call-status"))],
    which wants a string for the id. *)
Definition unique_id (s : entity) : result string :=
  id ← getitem (PyDict (device_info s)) "id";
  match id with
  | PyStr id => Ok (DOMAIN +:+ "-" +:+ id +:+ "-" +:+ "call-status")
  | _ => Raise TypeError
  end.

End Entity.

(** [async_setup_entry] of the module: one sensor for each device of the
    coordinator, handed to [async_add_entities] unless there is none. *)
Definition async_setup_entry (api : hikconnect)
    (devices : list (gmap string pyval)) (local_ip local_password : string)
    (hass : bool) : list entity :=
  (λ device_info, init api device_info local_ip local_password hass) <$> devices.

End Sensor.

(** ** The module [camera] *)

Module Camera.

(** A [HikConnectCamera]: the attributes [__init__] sets that vary. *)
Record entity : Type := Entity {
  device_info : gmap string pyval;
  local_ip : string;
  local_password : string;
  username : string
}.

(** [HikConnectCamera.__init__]. *)
Definition init (device_info : gmap string pyval)
    (local_ip local_password : string) : entity :=
  {| device_info := device_info; local_ip := local_ip;
     local_password := local_password; username := "admin" |}.

(** [f"http://{self._local_ip}/ISAPI/Streaming/channels/101/picture"]. *)
Definition picture_url (local_ip : string) : string :=
  "http://" +:+ local_ip +:+ "/ISAPI/Streaming/channels/101/picture".

(** [HikConnectCamera.async_camera_image]: the content of the response,
    its body read as bytes, or [None]; the warnings it logs change
    nothing.  The client always carries the digest credentials. *)
Definition async_camera_image (c : entity) : prog (option string) :=
  let url := picture_url (local_ip c) in
  let auth := Some (DigestAuth (username c) (local_password c)) in
  prog_bind (trigger (ClientGet url auth)) (fun reply =>
    match reply with
    | LocalFail _ => Ret None
    | LocalResponse status_code content =>
        if status_code =? 200 then Ret (Some content) else Ret None
    end).

(** [HikConnectCamera.model]. *)
Definition model (c : entity) : pyval :=
  default (PyStr "Video Intercom") (device_info c !! "model").

Section Entity.

Variable DOMAIN : string.

(** [HikConnectCamera.unique_id]. *)
Definition unique_id (c : entity) : result string :=
  id ← getitem (PyDict (device_info c)) "id";
  match id with
  | PyStr id => Ok (DOMAIN +:+ "-" +:+ id +:+ "-" +:+ "camera")
  | _ => Raise TypeError
  end.

End Entity.

(** [async_setup_entry] of the module: no camera unless the local address
    and password are both set, else one for each device of the
    coordinator. *)
Definition async_setup_entry (devices : list (gmap string pyval))
    (local_ip local_password : string) : list entity :=
  if negb (truthy (PyStr local_ip)) || negb (truthy (PyStr local_password))
  then []
  else (λ device_info, init device_info local_ip local_password) <$> devices.

End Camera.

(** An outcome that is an exception of [api_helper]: the three clauses of
    [async_update] that remember the error they logged. *)
Definition remembered_error (outcome : Sensor.awaited) : bool :=
  match outcome with
  | Sensor.RaisedDeviceNetworkError _ _
  | Sensor.RaisedDeviceOfflineError _ _
  | Sensor.RaisedHikConnectApiError _ _ => true
  | _ => false
  end.

(** An outcome that is an exception, or a result with the status [st]. *)
Definition raised_or_status (st : string) (outcome : Sensor.awaited) : Prop :=
  match outcome with
  | Sensor.Returned res => status res = st
  | _ => True
  end.

(** ** More sample data *)

Module Example.

(** [DOMAIN] as the examples take it. *)
Definition DOMAIN : string := "hikconnect".

(** A reference for the text of a value in an f-string: it reads None,
    booleans, integers and strings; other values are outside what it
    reads. *)
Definition format_value (v : pyval) : string :=
  match v with
  | PyNone => "None"
  | PyBool true => "True"
  | PyBool false => "False"
  | PyInt n => pretty n
  | PyStr s => s
  | _ => EmptyString
  end.

Definition device_info : gmap string pyval :=
  {[ "id" := PyStr "dev1";
     "serial" := PyStr Sample.serial;
     "name" := PyStr "Front door" ]}.

(** A device info as a coordinator without names would give it. *)
Definition device_info_without_name : gmap string pyval :=
  {[ "id" := PyStr "dev1"; "serial" := PyStr Sample.serial ]}.

Definition sensor : Sensor.entity :=
  Sensor.init Sample.api device_info Sample.local_ip Sample.local_password true.

Definition sensor_without_name : Sensor.entity :=
  Sensor.init Sample.api device_info_without_name Sample.local_ip
    Sample.local_password true.

(** The sensor while the bell rings. *)
Definition sensor_ringing : Sensor.entity :=
  Sensor.updated sensor Sample.ringing (Some "ringing").

Definition camera : Camera.entity :=
  Camera.init device_info Sample.local_ip Sample.local_password.

Definition idle : fetch_result := {| status := "idle"; info := ∅ |}.
Definition unknown : fetch_result := {| status := "unknown"; info := ∅ |}.

Definition server_busy : pyval := PyDict (Sample.envelope 5000 "Server busy").

(** The sample payload as an embedded value. *)
Definition ok_embedded : pyval :=
  PyDict (<["data" := Sample.payload]> (Sample.envelope 200 "OK")).

Definition empty_object_text : pyval := PyDict {[ "data" := PyStr "{}" ]}.
Definition empty_object_value : pyval := PyDict {[ "data" := PyDict ∅ ]}.

Definition caller_info_null : pyval :=
  PyDict {[ "data" :=
              PyDict {[ "callStatus" := PyInt 1; "callerInfo" := PyNone ]} ]}.

(** Bodies of the device: both status fields at once, and neither. *)
Definition body_both_fields : string :=
  "{" +:+ Json.quoted "CallStatus" +:+ ":{" +:+ Json.quoted "status" +:+ ":"
      +:+ Json.quoted "Ringing" +:+ "}," +:+ Json.quoted "status" +:+ ":"
      +:+ Json.quoted "idle" +:+ "}".

Definition body_state_ringing : string :=
  "{" +:+ Json.quoted "state" +:+ ":" +:+ Json.quoted "ringing" +:+ "}".

Definition primary_endpoint : string := "/v3/devconfig/v1/call/{serial}/status".

Definition raised_offline : Sensor.awaited :=
  Sensor.RaisedDeviceOfflineError (PyInt 2003) (PyStr "Device offline").

(** Polls while the bell rings, one of them timed out. *)
Definition ringing_polls : list Sensor.awaited :=
  [Sensor.Returned Sample.ringing; Sensor.RaisedTimeoutError;
   Sensor.Returned Sample.ringing; Sensor.Returned Sample.ringing].

End Example.
(** ** Running programs *)

Lemma run_prog_bind {A B : Type} (m : prog A) (f : A -> prog B) w log :
  run (prog_bind m f) w log = run (f (run m w log).1) w (run m w log).2.
Proof.
  revert log. induction m as [a | X e k IH]; intros log; simpl; [done |].
  destruct (answer w log e) as [x log']. apply IH.
Qed.

Lemma run_task_bind {A B : Type} (m : task A) (f : A -> task B) w log :
  run (m ≫= f) w log =
  match (run m w log).1 with
  | Ok a => run (f a) w (run m w log).2
  | Raise e => (Raise e, (run m w log).2)
  end.
Proof.
  unfold mbind, task_bind. rewrite run_prog_bind.
  by destruct (run m w log).1.
Qed.

Lemma run_lift {A : Type} (r : result A) w log : run (lift r) w log = (r, log).
Proof. done. Qed.

Lemma run_mret {A : Type} (a : A) w log : run (mret a : task A) w log = (Ok a, log).
Proof. done. Qed.

Lemma run_get_headers_plain session_id w log :
  run (_get_headers session_id false) w log = (Ok (base_headers session_id), log).
Proof. done. Qed.

Lemma run_get_headers_extra session_id w log :
  run (_get_headers session_id true) w log =
  (Ok (update_extra (base_headers session_id) (clock_millis w log)), log).
Proof. done. Qed.

Lemma run_session_get_json url headers w log :
  run (session_get_json url headers) w log =
  (match cloud_service w log url headers with
   | CloudFail what => Raise (TransportError what)
   | CloudJson res_json => Ok res_json
   end, log ++ [CloudRequest url headers]).
Proof.
  unfold session_get_json. rewrite run_task_bind. simpl.
  by destruct (cloud_service w log url headers).
Qed.

(** One step of a run: split the leading bind and evaluate its head. *)
Ltac run_step :=
  rewrite ?run_task_bind;
  first [ rewrite run_get_headers_plain
        | rewrite run_get_headers_extra
        | rewrite run_session_get_json
        | rewrite run_lift
        | rewrite run_mret ];
  cbn [fst snd].

(** ** Comparison with an integer literal *)

Lemma eq_int_true_inv v n : eq_int v n = true -> as_int v = Some n.
Proof.
  unfold eq_int. destruct (as_int v) as [z |]; [| done].
  intros H. f_equal. by apply Z.eqb_eq.
Qed.

Lemma eq_int_other v n m : eq_int v n = true -> n ≠ m -> eq_int v m = false.
Proof.
  intros H Hne. apply eq_int_true_inv in H. unfold eq_int. rewrite H.
  by apply Z.eqb_neq.
Qed.

(** ** The headers of the retry *)

Lemma update_extra_adds headers now :
  headers !! "User-Agent" = None ->
  headers !! "X-Timestamp" = None ->
  headers ⊆ update_extra headers now
  ∧ update_extra headers now !! "User-Agent" = Some "Hik-Connect/5.0.0 (Android)"
  ∧ update_extra headers now !! "X-Timestamp" = Some (pretty now)
  ∧ dom (update_extra headers now) = dom headers ∪ {[ "User-Agent"; "X-Timestamp" ]}.
Proof.
  intros Hua Hts. unfold update_extra. repeat split.
  - etrans; [| apply insert_subseteq; by rewrite lookup_insert_ne].
    by apply insert_subseteq.
  - by rewrite lookup_insert_ne, lookup_insert_eq.
  - by rewrite lookup_insert_eq.
  - rewrite !dom_insert_L. apply set_eq. intros x.
    rewrite !elem_of_union. tauto.
Qed.

Lemma base_headers_no_extra session_id :
  base_headers session_id !! "User-Agent" = None
  ∧ base_headers session_id !! "X-Timestamp" = None.
Proof. done. Qed.

(** ** The cloud fetch *)

Section CloudFetch.

Variable json_loads : string -> option pyval.
Variables base_url session_id device_serial : string.
Variable w : world.
Variable log : list request.

Let url : string := call_status_url base_url device_serial.
Let first_request : request := CloudRequest url (base_headers session_id).
Let log1 : list request := log ++ [first_request].
Let headers_extra : gmap string string :=
  update_extra (base_headers session_id) (clock_millis w log1).
Let retry_request : request := CloudRequest url headers_extra.
Let fetch : result fetch_result * list request :=
  run (get_call_status_custom json_loads base_url session_id device_serial) w log.

(** The run of the fetch up to the first envelope. *)
Lemma fetch_first_envelope res_json code message :
  cloud_service w log url (base_headers session_id) = CloudJson res_json ->
  envelope_meta res_json = Ok (code, message) ->
  fetch =
  run (if eq_int code 2003 then lift (Raise (DeviceOfflineError code message))
       else
         '(res_json, code, message) ←
           (if eq_int code 2009 then
              headers_extra ← _get_headers session_id true;
              res_json ← session_get_json url headers_extra;
              '(code, message) ← lift (envelope_meta res_json);
              if eq_int code 2009
              then lift (Raise (DeviceNetworkError code message))
              else mret (res_json, code, message)
            else mret (res_json, code, message));
         if negb (eq_int code 200)
         then lift (Raise (HikConnectApiError code message))
         else lift (_parse_call_status_response json_loads res_json)) w log1.
Proof.
  intros Hreply Hmeta. unfold fetch, get_call_status_custom.
  run_step. run_step. fold url. rewrite Hreply. run_step. by rewrite Hmeta.
Qed.

(** The run of the fetch after a first envelope with code 2009, by the
    outcome of the retry. *)
Lemma fetch_after_2009 res_json code message :
  cloud_service w log url (base_headers session_id) = CloudJson res_json ->
  envelope_meta res_json = Ok (code, message) ->
  eq_int code 2009 = true ->
  fetch =
  (match cloud_service w log1 url headers_extra with
   | CloudFail what => Raise (TransportError what)
   | CloudJson res_json2 =>
       match envelope_meta res_json2 with
       | Raise e => Raise e
       | Ok (code2, message2) =>
           if eq_int code2 2009 then Raise (DeviceNetworkError code2 message2)
           else if negb (eq_int code2 200)
                then Raise (HikConnectApiError code2 message2)
                else _parse_call_status_response json_loads res_json2
       end
   end, log1 ++ [retry_request]).
Proof.
  intros Hreply Hmeta Hcode.
  rewrite (fetch_first_envelope _ _ _ Hreply Hmeta).
  rewrite (eq_int_other _ _ 2003 Hcode) by done. rewrite Hcode. cbv iota.
  run_step. run_step. fold headers_extra retry_request.
  destruct (cloud_service w log1 url headers_extra) as [what | res_json2]; [done |].
  run_step. destruct (envelope_meta res_json2) as [[code2 message2] | e]; [| done].
  destruct (eq_int code2 2009); [done |]. rewrite run_mret. cbn [fst snd].
  by destruct (eq_int code2 200).
Qed.

(** C3: a first envelope with meta code 2003 makes the fetch raise
    DeviceOfflineError with that code and message, and the log of the run
    holds the first request and nothing after it: no second HTTP request
    is issued. *)
Theorem code_2003_raises_device_offline res_json code message :
  cloud_service w log url (base_headers session_id) = CloudJson res_json ->
  envelope_meta res_json = Ok (code, message) ->
  eq_int code 2003 = true ->
  fetch = (Raise (DeviceOfflineError code message), log ++ [first_request]).
Proof.
  intros Hreply Hmeta Hcode.
  rewrite (fetch_first_envelope _ _ _ Hreply Hmeta). by rewrite Hcode.
Qed.

(** C1: a first envelope with meta code 2009 makes the fetch issue exactly
    one more request, to the same URL, with the headers of the first
    request plus User-Agent and X-Timestamp; when the envelope of the retry
    has code 2009 the fetch raises DeviceNetworkError, when it has code 200
    the fetch gives what parsing the retried response gives, and for any
    other code it raises HikConnectApiError with that code and message. *)
Theorem code_2009_retries_once res_json code message :
  cloud_service w log url (base_headers session_id) = CloudJson res_json ->
  envelope_meta res_json = Ok (code, message) ->
  eq_int code 2009 = true ->
  fetch.2 = log ++ [first_request; CloudRequest url headers_extra]
  ∧ (base_headers session_id ⊆ headers_extra
     ∧ headers_extra !! "User-Agent" = Some "Hik-Connect/5.0.0 (Android)"
     ∧ headers_extra !! "X-Timestamp" = Some (pretty (clock_millis w log1))
     ∧ dom headers_extra =
         dom (base_headers session_id) ∪ {[ "User-Agent"; "X-Timestamp" ]})
  ∧ ∀ res_json2 code2 message2,
      cloud_service w log1 url headers_extra = CloudJson res_json2 ->
      envelope_meta res_json2 = Ok (code2, message2) ->
      (eq_int code2 2009 = true ->
         fetch.1 = Raise (DeviceNetworkError code2 message2))
      ∧ (eq_int code2 200 = true ->
         fetch.1 = _parse_call_status_response json_loads res_json2)
      ∧ (eq_int code2 2009 = false -> eq_int code2 200 = false ->
         fetch.1 = Raise (HikConnectApiError code2 message2)).
Proof.
  intros Hreply Hmeta Hcode.
  rewrite (fetch_after_2009 _ _ _ Hreply Hmeta Hcode). cbn [fst snd].
  split; [unfold log1; by rewrite <- app_assoc |]. split.
  { apply update_extra_adds; apply base_headers_no_extra. }
  intros res_json2 code2 message2 Hreply2 Hmeta2. rewrite Hreply2, Hmeta2.
  repeat split.
  - by intros ->.
  - intros H200. by rewrite (eq_int_other _ _ 2009 H200), H200.
  - by intros -> ->.
Qed.

Lemma parse_without_data res_json :
  without_data res_json ->
  _parse_call_status_response json_loads res_json = Raise no_data.
Proof.
  intros (data_str & Hget & Hfalsy).
  unfold _parse_call_status_response, response_data.
  rewrite Hget. simpl. by rewrite Hfalsy.
Qed.

(** C10: an envelope with meta code 200 whose data field is missing or
    empty makes the fetch raise HikConnectApiError with code 0 and message
    No data in response, be it the first response or the response to the
    retry; such a fetch gives no result. *)
Theorem code_200_without_data_raises :
  (∀ res_json code message,
     cloud_service w log url (base_headers session_id) = CloudJson res_json ->
     envelope_meta res_json = Ok (code, message) ->
     eq_int code 200 = true ->
     without_data res_json ->
     fetch = (Raise no_data, log ++ [first_request]))
  ∧ (∀ res_json code message res_json2 code2 message2,
     cloud_service w log url (base_headers session_id) = CloudJson res_json ->
     envelope_meta res_json = Ok (code, message) ->
     eq_int code 2009 = true ->
     cloud_service w log1 url headers_extra = CloudJson res_json2 ->
     envelope_meta res_json2 = Ok (code2, message2) ->
     eq_int code2 200 = true ->
     without_data res_json2 ->
     fetch = (Raise no_data, log ++ [first_request; retry_request]))
  ∧ no_data = HikConnectApiError (PyInt 0) (PyStr "No data in response").
Proof.
  split; [| split; [| done]].
  - intros res_json code message Hreply Hmeta Hcode Hdata.
    rewrite (fetch_first_envelope _ _ _ Hreply Hmeta).
    rewrite (eq_int_other _ _ 2003 Hcode), (eq_int_other _ _ 2009 Hcode) by done.
    cbv iota. run_step. rewrite Hcode. simpl. by rewrite parse_without_data.
  - intros res_json code message res_json2 code2 message2
      Hreply Hmeta Hcode Hreply2 Hmeta2 Hcode2 Hdata.
    rewrite (fetch_after_2009 _ _ _ Hreply Hmeta Hcode), Hreply2, Hmeta2.
    rewrite (eq_int_other _ _ 2009 Hcode2), Hcode2 by done. simpl.
    unfold log1. by rewrite parse_without_data, <- app_assoc.
Qed.

End CloudFetch.

(** ** Parsing a response *)

Lemma call_status_mapping_lookup (n : Z) :
  default "unknown" (CALL_STATUS_MAPPING !! n) = status_of_code n.
Proof.
  unfold status_of_code, CALL_STATUS_MAPPING.
  destruct (Z.eqb_spec n 1) as [-> | H1]; [done |].
  destruct (Z.eqb_spec n 2) as [-> | H2]; [done |].
  destruct (Z.eqb_spec n 3) as [-> | H3]; [done |].
  by rewrite !lookup_insert_ne, lookup_singleton_ne.
Qed.

(** The lookup in the code table, for every key that can be hashed: a key
    equal to an integer is looked up as that integer. *)
Lemma call_status_mapping_get_hashable key :
  hashable key = true ->
  call_status_mapping_get key "unknown" =
  Ok (match as_int key with
      | Some n => status_of_code n
      | None => "unknown"
      end).
Proof.
  intros Hkey. unfold call_status_mapping_get. rewrite Hkey. f_equal.
  destruct (as_int key) as [n |]; [| done]. apply call_status_mapping_lookup.
Qed.

Lemma call_status_mapping_get_status key s :
  call_status_mapping_get key "unknown" = Ok s -> s ∈ STATUS.
Proof.
  unfold call_status_mapping_get. destruct (hashable key); [| done].
  intros [= <-]. destruct (as_int key) as [n |]; simpl; [| set_solver].
  rewrite call_status_mapping_lookup. unfold status_of_code, STATUS.
  repeat case_match; set_solver.
Qed.

(** The loop over the rename table when the caller info is an object. *)
Lemma map_caller_info_dict items (ci : gmap string pyval) :
  NoDup items.*2 ->
  ∀ acc : gmap string pyval,
  ∃ info : gmap string pyval,
    map_caller_info items (PyDict ci) acc = Ok info
    ∧ ∀ out_key v,
        info !! out_key = Some v ↔
        (∃ in_key, (in_key, out_key) ∈ items ∧ ci !! in_key = Some v)
        ∨ ((∀ in_key, (in_key, out_key) ∈ items -> ci !! in_key = None)
           ∧ acc !! out_key = Some v).
Proof.
  induction items as [| [i o] rest IH]; intros Hnd acc.
  - exists acc. split; [done |]. intros out_key v. split.
    + intros H. right. split; [| done]. intros in_key Hin. by apply elem_of_nil in Hin.
    + intros [(in_key & Hin & _) | [_ H]]; [by apply elem_of_nil in Hin | done].
  - apply NoDup_cons in Hnd as [Hfresh Hnd]. simpl.
    assert (Hrest : ∀ in_key, (in_key, o) ∉ rest).
    { intros in_key Hin. apply Hfresh.
      apply list_elem_of_fmap. by exists (in_key, o). }
    destruct (ci !! i) as [x |] eqn:Hi.
    + rewrite bool_decide_eq_true_2 by done. simpl.
      destruct (IH Hnd (<[o := x]> acc)) as (info & -> & Hinfo).
      exists info. split; [done |]. intros out_key v. rewrite Hinfo.
      destruct (decide (out_key = o)) as [-> | Hne].
      * rewrite lookup_insert_eq. split.
        -- intros [(in_key & Hin & _) | [_ Hx]]; [by destruct (Hrest in_key) |].
           simplify_eq. left. exists i. split; [left | done].
        -- intros [(in_key & Hin & Hv) | [Hnone _]].
           ++ apply elem_of_cons in Hin as [Heq | Hin];
                [| by destruct (Hrest in_key)].
              simplify_eq. right. split; [| done].
              intros in_key Hin. by destruct (Hrest in_key).
           ++ rewrite Hnone in Hi by left. done.
      * rewrite lookup_insert_ne by done. split.
        -- intros [(in_key & Hin & Hv) | [Hnone Hacc]].
           ++ left. exists in_key. split; [by right | done].
           ++ right. split; [| done]. intros in_key Hin.
              apply elem_of_cons in Hin as [Heq | Hin]; [| by apply Hnone].
              by simplify_eq.
        -- intros [(in_key & Hin & Hv) | [Hnone Hacc]].
           ++ left. exists in_key. split; [| done].
              apply elem_of_cons in Hin as [Heq | Hin]; [| done].
              by simplify_eq.
           ++ right. split; [| done]. intros in_key Hin. apply Hnone. by right.
    + rewrite bool_decide_eq_false_2 by (by intros [? ?]). simpl.
      destruct (IH Hnd acc) as (info & -> & Hinfo).
      exists info. split; [done |]. intros out_key v. rewrite Hinfo. split.
      * intros [(in_key & Hin & Hv) | [Hnone Hacc]].
        -- left. exists in_key. split; [by right | done].
        -- right. split; [| done]. intros in_key Hin.
           apply elem_of_cons in Hin as [Heq | Hin]; [| by apply Hnone].
           by simplify_eq.
      * intros [(in_key & Hin & Hv) | [Hnone Hacc]].
        -- left. exists in_key. split; [| done].
           apply elem_of_cons in Hin as [Heq | Hin]; [| done].
           simplify_eq.
        -- right. split; [| done]. intros in_key Hin. apply Hnone. by right.
Qed.

(** The loop over the rename table when the caller info is no object: it
    raises or leaves [info] as it was. *)
Lemma map_caller_info_other items caller_info acc info :
  (∀ ci, caller_info ≠ PyDict ci) ->
  map_caller_info items caller_info acc = Ok info -> info = acc.
Proof.
  intros Hother. revert acc.
  induction items as [| [i o] rest IH]; intros acc; simpl; [congruence |].
  destruct caller_info as [| | | | s | l | ci]; simpl; try done.
  - destruct (contains i s); simpl; [done | apply IH].
  - destruct (existsb _ l); simpl; [done | apply IH].
  - by destruct (Hother ci).
Qed.

Lemma CALL_INFO_MAPPING_NoDup : NoDup CALL_INFO_MAPPING.*2.
Proof. apply (bool_decide_unpack _). by vm_compute. Qed.

Lemma CALL_INFO_MAPPING_in_key in_key in_key' out_key :
  (in_key, out_key) ∈ CALL_INFO_MAPPING ->
  (in_key', out_key) ∈ CALL_INFO_MAPPING ->
  in_key = in_key'.
Proof.
  unfold CALL_INFO_MAPPING. rewrite !elem_of_cons, !elem_of_nil.
  intros H H'. repeat destruct H as [H | H]; try done;
    repeat destruct H' as [H' | H']; try done; congruence.
Qed.

(** Reduce the binds of the error monad, and nothing else. *)
Tactic Notation "result_simpl" := cbn [mbind result_bind mret result_ret].
Tactic Notation "result_simpl" "in" hyp(H) :=
  cbn [mbind result_bind mret result_ret] in H.

Section Parse.

Variable json_loads : string -> option pyval.

Lemma parse_steps res_json data :
  response_data json_loads res_json = Ok data ->
  _parse_call_status_response json_loads res_json =
  (call_status_code ← get data "callStatus" (PyInt 0);
   status ← call_status_mapping_get call_status_code "unknown";
   caller_info ← get data "callerInfo" (PyDict ∅);
   info ← map_caller_info CALL_INFO_MAPPING caller_info ∅;
   mret {| status := status; info := info |}).
Proof. intros Hdata. unfold _parse_call_status_response. by rewrite Hdata. Qed.

Lemma parse_ok_inv res_json r :
  _parse_call_status_response json_loads res_json = Ok r ->
  ∃ data code caller_info,
    response_data json_loads res_json = Ok data
    ∧ get data "callStatus" (PyInt 0) = Ok code
    ∧ call_status_mapping_get code "unknown" = Ok (status r)
    ∧ get data "callerInfo" (PyDict ∅) = Ok caller_info
    ∧ map_caller_info CALL_INFO_MAPPING caller_info ∅ = Ok (info r).
Proof.
  unfold _parse_call_status_response.
  destruct (response_data json_loads res_json) as [data | e] eqn:Hdata; [| done].
  result_simpl.
  destruct (get data "callStatus" (PyInt 0)) as [code | e] eqn:Hcode; [| done].
  result_simpl.
  destruct (call_status_mapping_get code "unknown") as [s | e] eqn:Hs; [| done].
  result_simpl.
  destruct (get data "callerInfo" (PyDict ∅)) as [caller_info | e] eqn:Hci; [| done].
  result_simpl.
  destruct (map_caller_info CALL_INFO_MAPPING caller_info ∅) as [i | e] eqn:Hi;
    [| done].
  result_simpl. intros [= <-]. by exists data, code, caller_info.
Qed.

Lemma parse_ok_status res_json r :
  _parse_call_status_response json_loads res_json = Ok r -> status r ∈ STATUS.
Proof.
  intros (data & code & caller_info & _ & _ & Hstatus & _)%parse_ok_inv.
  by eapply call_status_mapping_get_status.
Qed.

(** C2: when the payload of a response carries the integer [n] as its call
    status (0 when the field is absent), every result of parsing it has
    status idle for 1, ringing for 2, call in progress for 3 and unknown
    for every other [n]; and parsing does give a result when the caller
    info is an object or absent. *)
Theorem call_status_code_mapping res_json data n :
  response_data json_loads res_json = Ok data ->
  get data "callStatus" (PyInt 0) = Ok (PyInt n) ->
  (∀ r, _parse_call_status_response json_loads res_json = Ok r ->
     (n = 1 -> status r = "idle")
     ∧ (n = 2 -> status r = "ringing")
     ∧ (n = 3 -> status r = "call in progress")
     ∧ (n ≠ 1 -> n ≠ 2 -> n ≠ 3 -> status r = "unknown"))
  ∧ ((∃ ci, get data "callerInfo" (PyDict ∅) = Ok (PyDict ci)) ->
     ∃ r, _parse_call_status_response json_loads res_json = Ok r).
Proof.
  intros Hdata Hcode. rewrite (parse_steps _ _ Hdata), Hcode. result_simpl.
  rewrite call_status_mapping_get_hashable by done. result_simpl. split.
  - intros r Hr.
    destruct (get data "callerInfo" (PyDict ∅)) as [caller_info | e]; [| done].
    result_simpl in Hr.
    destruct (map_caller_info CALL_INFO_MAPPING caller_info ∅) as [i | e]; [| done].
    injection Hr as <-. simpl. unfold status_of_code. repeat split.
    + by intros ->.
    + by intros ->.
    + by intros ->.
    + intros H1 H2 H3.
      by rewrite (proj2 (Z.eqb_neq n 1)), (proj2 (Z.eqb_neq n 2)),
        (proj2 (Z.eqb_neq n 3)).
  - intros [ci ->]. result_simpl.
    destruct (map_caller_info_dict CALL_INFO_MAPPING ci
                CALL_INFO_MAPPING_NoDup ∅) as (i & -> & _).
    by eexists.
Qed.

(** C7: the caller info of every result of parsing a response holds, for
    each key of the rename table that the caller-info object of the payload
    has, the renamed key with the value of the payload, and nothing else; a
    table key the payload lacks has no renamed form in the result; and
    parsing does give a result when the caller info is an object (or
    absent) and the call status can be looked up. *)
Theorem caller_info_renamed res_json data caller_info :
  response_data json_loads res_json = Ok data ->
  get data "callerInfo" (PyDict ∅) = Ok caller_info ->
  (∀ r, _parse_call_status_response json_loads res_json = Ok r ->
     (∀ out_key v,
        info r !! out_key = Some v ↔
        ∃ in_key ci, (in_key, out_key) ∈ CALL_INFO_MAPPING
                     ∧ caller_info = PyDict ci ∧ ci !! in_key = Some v)
     ∧ (∀ in_key out_key ci,
          (in_key, out_key) ∈ CALL_INFO_MAPPING ->
          caller_info = PyDict ci -> ci !! in_key = None ->
          info r !! out_key = None))
  ∧ (∀ ci code,
       caller_info = PyDict ci ->
       get data "callStatus" (PyInt 0) = Ok code -> hashable code = true ->
       ∃ r, _parse_call_status_response json_loads res_json = Ok r).
Proof.
  intros Hdata Hci. split.
  - intros r (data' & code & caller_info' & Hdata' & _ & _ & Hci' & Hinfo)%parse_ok_inv.
    assert (data' = data) as -> by congruence.
    assert (caller_info' = caller_info) as -> by congruence.
    assert (Hiff : ∀ out_key v,
        info r !! out_key = Some v ↔
        ∃ in_key ci, (in_key, out_key) ∈ CALL_INFO_MAPPING
                     ∧ caller_info = PyDict ci ∧ ci !! in_key = Some v).
    { intros out_key v.
      assert (Hcases : (∃ ci, caller_info = PyDict ci)
                       ∨ (∀ ci, caller_info ≠ PyDict ci)).
      { destruct caller_info; [by right .. | left; by eexists]. }
      destruct Hcases as [[ci ->] | Hother].
      - destruct (map_caller_info_dict CALL_INFO_MAPPING ci
                    CALL_INFO_MAPPING_NoDup ∅) as (i & Hi & Hlookup).
        assert (i = info r) as -> by congruence. rewrite Hlookup. split.
        + intros [(in_key & Hin & Hv) | [_ Hempty]]; [by exists in_key, ci |].
          by rewrite lookup_empty in Hempty.
        + intros (in_key & ci' & Hin & [= <-] & Hv). left. by exists in_key.
      - apply map_caller_info_other in Hinfo; [| done].
        rewrite Hinfo, lookup_empty. split; [done |].
        intros (_ & ci & _ & -> & _). by destruct (Hother ci). }
    split; [done |]. intros in_key out_key ci Hin -> Hnone.
    destruct (info r !! out_key) as [v |] eqn:Hv; [| done].
    apply Hiff in Hv as (in_key' & ci' & Hin' & [= <-] & Hv).
    rewrite (CALL_INFO_MAPPING_in_key _ _ _ Hin Hin') in Hnone. congruence.
  - intros ci code -> Hcode Hhash.
    rewrite (parse_steps _ _ Hdata), Hcode. result_simpl.
    rewrite call_status_mapping_get_hashable by done. result_simpl.
    rewrite Hci. result_simpl.
    destruct (map_caller_info_dict CALL_INFO_MAPPING ci
                CALL_INFO_MAPPING_NoDup ∅) as (i & -> & _).
    by eexists.
Qed.

End Parse.

(** ** The local fetch *)

Lemma truthy_str s : truthy (PyStr s) = true ↔ s ≠ EmptyString.
Proof.
  simpl. rewrite negb_true_iff. split.
  - intros H ->. by rewrite String.eqb_refl in H.
  - intros H. by apply String.eqb_neq.
Qed.

Lemma isapi_auth_password username password :
  password ≠ EmptyString ->
  isapi_auth username password = Some (DigestAuth username password).
Proof. intros H. unfold isapi_auth. by rewrite (proj2 (truthy_str _) H). Qed.

Section LocalFetch.

Variable json_loads : string -> option pyval.
Variable unicode_lower : string -> string.

Lemma run_get_call_status_isapi local_ip username password w log :
  run (get_call_status_isapi json_loads unicode_lower local_ip username password) w log =
  (match local_device w log (isapi_url local_ip) (isapi_auth username password) with
   | LocalFail _ => None
   | LocalResponse status_code text =>
       if status_code =? 200 then
         match isapi_ok_body json_loads unicode_lower text with
         | Ok r => Some r
         | Raise _ => None
         end
       else None
   end,
   log ++ [LocalRequest (isapi_url local_ip) (isapi_auth username password)]).
Proof.
  unfold get_call_status_isapi. rewrite run_prog_bind. simpl.
  destruct (local_device w log _ _) as [what | status_code text]; [done |].
  destruct (status_code =? 200).
  - by destruct (isapi_ok_body json_loads unicode_lower text).
  - by destruct (status_code =? 404).
Qed.

(** A body that is not JSON goes to the keyword matching. *)
Lemma isapi_ok_body_not_json text :
  json_loads text = None ->
  isapi_ok_body json_loads unicode_lower text =
  Ok {| status := isapi_text_status text; info := ∅ |}.
Proof. intros H. unfold isapi_ok_body, isapi_json_status. by rewrite H. Qed.

(** What the JSON branch returns: the lower-cased text of a status field. *)
Lemma isapi_json_status_inv text r :
  isapi_json_status json_loads unicode_lower text = Ok (Some r) ->
  ∃ data field,
    json_loads text = Some data
    ∧ r = {| status := str_lower unicode_lower field; info := ∅ |}
    ∧ ((∃ call_status, getitem data "CallStatus" = Ok call_status
                       ∧ get call_status "status" (PyStr "unknown") = Ok (PyStr field))
       ∨ getitem data "status" = Ok (PyStr field)).
Proof.
  unfold isapi_json_status.
  destruct (json_loads text) as [data |]; [| done].
  destruct (is_in "CallStatus" data) as [[|] | e]; [| | done]; result_simpl.
  - destruct (getitem data "CallStatus") as [call_status | e] eqn:Hcs; [| done].
    result_simpl.
    destruct (get call_status "status" (PyStr "unknown")) as [field | e] eqn:Hf;
      [| done].
    result_simpl. destruct field as [| | | | field | |]; try done.
    cbn [lower]. result_simpl. intros [= <-].
    exists data, field. split; [done |]. split; [done |]. left.
    by exists call_status.
  - destruct (is_in "status" data) as [[|] | e]; [| done | done]; result_simpl.
    destruct (getitem data "status") as [field | e] eqn:Hfield; [| done].
    result_simpl.
    destruct field as [| | | | field | |]; try done.
    cbn [lower]. result_simpl. intros [= <-].
    exists data, field. split; [done |]. split; [done |]. by right.
Qed.

(** A JSON object with a status field that is a string, under CallStatus
    or, without CallStatus, at top level: the 200 branch returns that
    field lower-cased. *)
Lemma isapi_ok_body_field text d field :
  json_loads text = Some (PyDict d) ->
  (∃ call_status,
     d !! "CallStatus" = Some call_status
     ∧ get call_status "status" (PyStr "unknown") = Ok (PyStr field))
  ∨ (d !! "CallStatus" = None ∧ d !! "status" = Some (PyStr field)) ->
  isapi_ok_body json_loads unicode_lower text =
  Ok {| status := str_lower unicode_lower field; info := ∅ |}.
Proof.
  intros Hloads Hfield. unfold isapi_ok_body, isapi_json_status.
  rewrite Hloads. cbn [is_in getitem].
  destruct Hfield as [(call_status & Hcs & Hget) | [Hcs Hstatus]]; rewrite Hcs.
  - rewrite (bool_decide_eq_true_2 (is_Some (Some call_status))) by done.
    result_simpl. rewrite Hget. by result_simpl.
  - rewrite (bool_decide_eq_false_2 (is_Some None)) by (by intros [? ?]).
    result_simpl. rewrite Hstatus.
    rewrite (bool_decide_eq_true_2 (is_Some (Some (PyStr field)))) by done.
    by result_simpl.
Qed.

Lemma isapi_text_status_in_STATUS text : isapi_text_status text ∈ STATUS.
Proof. unfold isapi_text_status, STATUS. repeat case_match; set_solver. Qed.

(** Every result of the 200 branch has an empty caller info, and its
    status is in the enumeration unless it comes from the JSON branch. *)
Lemma isapi_ok_body_inv text r :
  isapi_ok_body json_loads unicode_lower text = Ok r ->
  info r = ∅
  ∧ (status r ∈ STATUS ∨ isapi_json_status json_loads unicode_lower text = Ok (Some r)).
Proof.
  unfold isapi_ok_body.
  destruct (isapi_json_status json_loads unicode_lower text) as [[r' |] | e] eqn:Hjson;
    [| | done]; result_simpl; intros [= <-].
  - apply isapi_json_status_inv in Hjson as (data & field & _ & -> & _).
    split; [done | by right].
  - split; [done |]. left. apply isapi_text_status_in_STATUS.
Qed.

(** C8, as amended: when the device answers 200, the local fetch gives
    status idle for the body with [Idle] nested under [CallStatus] and
    status ringing for the body with the flat status [RINGING], the field
    being lower-cased; for a body that is not JSON and has ringing but not
    idle in it, whatever the case of the letters, it gives status ringing;
    and every result of the local fetch has an empty caller info. *)
Theorem isapi_status_mapping w log local_ip username password text :
  local_device w log (isapi_url local_ip) (isapi_auth username password) =
    LocalResponse 200 text ->
  (text = body_nested_idle ->
   json_loads body_nested_idle =
     Some (PyDict {[ "CallStatus" := PyDict {[ "status" := PyStr "Idle" ]} ]}) ->
   (run (get_call_status_isapi json_loads unicode_lower local_ip username password) w log).1 =
     Some {| status := "idle"; info := ∅ |})
  ∧ (text = body_flat_ringing ->
     json_loads body_flat_ringing = Some (PyDict {[ "status" := PyStr "RINGING" ]}) ->
     (run (get_call_status_isapi json_loads unicode_lower local_ip username password) w log).1 =
       Some {| status := "ringing"; info := ∅ |})
  ∧ (json_loads text = None ->
     contains "ringing" (lower_str text) = true ->
     contains "idle" (lower_str text) = false ->
     (run (get_call_status_isapi json_loads unicode_lower local_ip username password) w log).1 =
       Some {| status := "ringing"; info := ∅ |})
  ∧ (∀ r,
     (run (get_call_status_isapi json_loads unicode_lower local_ip username password) w log).1 =
       Some r -> info r = ∅).
Proof.
  intros Hreply. rewrite run_get_call_status_isapi, Hreply. cbn [fst Z.eqb Pos.eqb].
  repeat split.
  - intros -> Hloads. unfold isapi_ok_body, isapi_json_status. by rewrite Hloads.
  - intros -> Hloads. unfold isapi_ok_body, isapi_json_status. by rewrite Hloads.
  - intros Hloads Hringing Hidle. rewrite isapi_ok_body_not_json by done.
    unfold isapi_text_status. by rewrite Hidle, Hringing.
  - intros r.
    destruct (isapi_ok_body json_loads unicode_lower text) as [r' | e] eqn:Hbody; [| done].
    intros [= <-]. by apply isapi_ok_body_inv in Hbody as [? _].
Qed.

End LocalFetch.

(** ** The fallback procedure *)

Section Fallback.

Variable json_loads : string -> option pyval.
Variable unicode_lower : string -> string.

(** The requests of the cloud fetch are cloud requests. *)
Lemma get_call_status_custom_log base_url session_id device_serial w log :
  ∃ new,
    (run (get_call_status_custom json_loads base_url session_id device_serial)
       w log).2 = log ++ new
    ∧ Forall (λ r, is_cloud_request r = true) new.
Proof.
  set (url := call_status_url base_url device_serial).
  set (h := base_headers session_id).
  destruct (cloud_service w log url h) as [what | res_json] eqn:Hreply.
  { exists [CloudRequest url h]. split; [| by repeat constructor].
    unfold get_call_status_custom. run_step. run_step.
    fold url h. by rewrite Hreply. }
  destruct (envelope_meta res_json) as [[code message] | e] eqn:Hmeta.
  2: { exists [CloudRequest url h]. split; [| by repeat constructor].
       unfold get_call_status_custom. run_step. run_step.
       fold url h. rewrite Hreply. run_step. by rewrite Hmeta. }
  destruct (eq_int code 2009) eqn:H2009.
  - rewrite (fetch_after_2009 _ _ _ _ _ _ _ _ _ Hreply Hmeta H2009).
    eexists [_; _]. split; [cbn [snd]; by rewrite <- app_assoc |].
    by repeat constructor.
  - exists [CloudRequest url h]. split; [| by repeat constructor].
    rewrite (fetch_first_envelope _ _ _ _ _ _ _ _ _ Hreply Hmeta). fold url h.
    destruct (eq_int code 2003); [done |]. rewrite H2009. run_step.
    by destruct (eq_int code 200).
Qed.

Lemma cloud_fallback_log api device_serial w log :
  ∃ new,
    (run (cloud_fallback json_loads api device_serial) w log).2 = log ++ new
    ∧ Forall (λ r, is_cloud_request r = true) new.
Proof.
  unfold cloud_fallback.
  destruct (client_default_headers api !! "sessionId") as [sid |].
  - destruct (negb (truthy (PyStr sid))).
    + exists []. by rewrite app_nil_r.
    + apply get_call_status_custom_log.
  - exists []. by rewrite app_nil_r.
Qed.

Lemma cloud_fallback_no_session api device_serial w log :
  no_session api ->
  run (cloud_fallback json_loads api device_serial) w log =
  (Raise not_logged_in, log).
Proof. unfold cloud_fallback. by intros [-> | ->]. Qed.

Lemma run_fallback_skipped api device_serial local_ip local_password :
  local_ip = EmptyString ∨ local_password = EmptyString ->
  get_call_status_with_fallback json_loads unicode_lower api device_serial local_ip local_password =
  cloud_fallback json_loads api device_serial.
Proof.
  unfold get_call_status_with_fallback.
  intros [-> | ->]; [done |]. by rewrite andb_false_r.
Qed.

Lemma run_fallback_configured api device_serial local_ip local_password w log :
  local_ip ≠ EmptyString -> local_password ≠ EmptyString ->
  run (get_call_status_with_fallback json_loads unicode_lower api device_serial
         local_ip local_password) w log =
  match (run (get_call_status_isapi json_loads unicode_lower local_ip "admin" local_password)
           w log).1 with
  | Some r =>
      (Ok r, log ++ [LocalRequest (isapi_url local_ip)
                       (Some (DigestAuth "admin" local_password))])
  | None =>
      run (cloud_fallback json_loads api device_serial) w
        (log ++ [LocalRequest (isapi_url local_ip)
                   (Some (DigestAuth "admin" local_password))])
  end.
Proof.
  intros Hip Hpw. unfold get_call_status_with_fallback.
  rewrite (proj2 (truthy_str _) Hip), (proj2 (truthy_str _) Hpw). cbn [andb].
  rewrite run_prog_bind, run_get_call_status_isapi, isapi_auth_password by done.
  cbn [fst snd].
  by destruct (local_device w log _ _) as [| c t];
    [| destruct (c =? 200); [destruct (isapi_ok_body json_loads unicode_lower t) |]].
Qed.

(** C9: with an empty local address and an empty local password the fetch
    is the cloud step and nothing else: the program has no local request in
    it, and every request a run adds to the log is a cloud request. *)
Theorem no_local_configuration_cloud_only api device_serial w log :
  get_call_status_with_fallback json_loads unicode_lower api device_serial
    EmptyString EmptyString =
  cloud_fallback json_loads api device_serial
  ∧ ∃ new,
      (run (get_call_status_with_fallback json_loads unicode_lower api device_serial
              EmptyString EmptyString) w log).2 = log ++ new
      ∧ Forall (λ r, is_cloud_request r = true) new.
Proof. split; [done |]. apply cloud_fallback_log. Qed.

(** C6, as amended: with no session identifier no cloud request is ever
    made.  The cloud step raises HikConnectApiError with code 0 and the
    not logged in message without any request; so does the whole fetch,
    at once and with no network call, when the local step is not
    configured; when it is configured the fetch makes the one local request
    and returns its result, or raises that same error if there is none. *)
Theorem no_session_no_cloud_request api device_serial local_ip local_password
    w log :
  no_session api ->
  run (cloud_fallback json_loads api device_serial) w log =
    (Raise not_logged_in, log)
  ∧ (local_ip = EmptyString ∨ local_password = EmptyString ->
     run (get_call_status_with_fallback json_loads unicode_lower api device_serial
            local_ip local_password) w log = (Raise not_logged_in, log))
  ∧ (local_ip ≠ EmptyString -> local_password ≠ EmptyString ->
     run (get_call_status_with_fallback json_loads unicode_lower api device_serial
            local_ip local_password) w log =
     (match (run (get_call_status_isapi json_loads unicode_lower local_ip "admin" local_password)
               w log).1 with
      | Some r => Ok r
      | None => Raise not_logged_in
      end,
      log ++ [LocalRequest (isapi_url local_ip)
                (Some (DigestAuth "admin" local_password))]))
  ∧ not_logged_in =
      HikConnectApiError (PyInt 0)
        (PyStr "No session ID available - not logged in").
Proof.
  intros Hsession. split; [by apply cloud_fallback_no_session |].
  split; [| split; [| done]].
  - intros Hskip. rewrite run_fallback_skipped by done.
    by apply cloud_fallback_no_session.
  - intros Hip Hpw. rewrite run_fallback_configured by done.
    destruct (run (get_call_status_isapi _ _ _ _ _) w log).1; [done |].
    by apply cloud_fallback_no_session.
Qed.

(** C4, as amended: with the local step configured, a transport error, a
    status code other than 200 (404 among them) and a 200 body whose
    reading raises all give no local result, and the fetch is then the
    cloud step, run after the one local request; a 200 body that is read
    gives the result of the fetch with no cloud request, and a body that is
    not JSON is always read, as unknown when it has no keyword; so the
    fetch is the cloud step or a local result, never a local error. *)
Theorem local_failure_falls_through api device_serial local_ip local_password
    w log :
  local_ip ≠ EmptyString -> local_password ≠ EmptyString ->
  let reply :=
    local_device w log (isapi_url local_ip)
      (Some (DigestAuth "admin" local_password)) in
  let log1 :=
    log ++ [LocalRequest (isapi_url local_ip)
              (Some (DigestAuth "admin" local_password))] in
  let fetch :=
    run (get_call_status_with_fallback json_loads unicode_lower api device_serial
           local_ip local_password) w log in
  let cloud := run (cloud_fallback json_loads api device_serial) w log1 in
  (∀ what, reply = LocalFail what -> fetch = cloud)
  ∧ (∀ status_code text,
       reply = LocalResponse status_code text -> status_code ≠ 200 ->
       fetch = cloud)
  ∧ (∀ text e,
       reply = LocalResponse 200 text ->
       isapi_ok_body json_loads unicode_lower text = Raise e -> fetch = cloud)
  ∧ (∀ text r,
       reply = LocalResponse 200 text ->
       isapi_ok_body json_loads unicode_lower text = Ok r -> fetch = (Ok r, log1))
  ∧ (∀ text,
       json_loads text = None ->
       isapi_ok_body json_loads unicode_lower text =
       Ok {| status := isapi_text_status text; info := ∅ |})
  ∧ (fetch = cloud ∨ ∃ r, fetch = (Ok r, log1)).
Proof.
  intros Hip Hpw reply log1 fetch cloud. unfold fetch.
  rewrite run_fallback_configured, run_get_call_status_isapi,
    isapi_auth_password by done.
  fold reply log1 cloud. cbn [fst]. repeat split.
  - by intros what ->.
  - intros status_code text -> Hcode. by rewrite (proj2 (Z.eqb_neq _ _) Hcode).
  - intros text e -> Hbody. by rewrite Hbody.
  - intros text r -> Hbody. by rewrite Hbody.
  - intros text Hloads. by apply isapi_ok_body_not_json.
  - destruct reply as [what | status_code text]; [by left |].
    destruct (status_code =? 200); [| by left].
    destruct (isapi_ok_body json_loads unicode_lower text) as [r | e]; [right; by exists r | by left].
Qed.

(** The results of the cloud fetch have their status in the enumeration. *)
Lemma get_call_status_custom_status base_url session_id device_serial w log r :
  (run (get_call_status_custom json_loads base_url session_id device_serial)
     w log).1 = Ok r ->
  status r ∈ STATUS.
Proof.
  set (url := call_status_url base_url device_serial).
  set (h := base_headers session_id).
  destruct (cloud_service w log url h) as [what | res_json] eqn:Hreply.
  { unfold get_call_status_custom. run_step. run_step.
    fold url h. by rewrite Hreply. }
  destruct (envelope_meta res_json) as [[code message] | e] eqn:Hmeta.
  2: { unfold get_call_status_custom. run_step. run_step.
       fold url h. rewrite Hreply. run_step. by rewrite Hmeta. }
  destruct (eq_int code 2009) eqn:H2009.
  - rewrite (fetch_after_2009 _ _ _ _ _ _ _ _ _ Hreply Hmeta H2009). cbn [fst].
    destruct (cloud_service w (log ++ _) _ _) as [what | res_json2]; [done |].
    cbv beta iota.
    destruct (envelope_meta res_json2) as [[code2 message2] | e]; [| done].
    destruct (eq_int code2 2009); [done |].
    destruct (eq_int code2 200); [| done]. apply parse_ok_status.
  - rewrite (fetch_first_envelope _ _ _ _ _ _ _ _ _ Hreply Hmeta). fold url h.
    destruct (eq_int code 2003); [done |]. rewrite H2009. run_step.
    destruct (eq_int code 200); [| done]. apply parse_ok_status.
Qed.

(** C5, as amended: the status of every result of the fetch is idle,
    ringing, call in progress or unknown, unless the result comes from the
    JSON branch of the local fetch; then the device answered 200 with a
    JSON text that has a status field under CallStatus or at top level,
    the result has an empty caller info, and its status is that field
    lower-cased by [str.lower], whatever it says.  And such a field always
    gives that result: with both local settings set, a 200 answer whose
    JSON object has a string for its status field, under CallStatus or,
    without CallStatus, at top level, makes the fetch return that field
    lower-cased with an empty caller info. *)
Theorem fetch_status_in_enumeration api device_serial local_ip local_password
    w log :
  let fetch :=
    run (get_call_status_with_fallback json_loads unicode_lower api
           device_serial local_ip local_password) w log in
  let reply :=
    local_device w log (isapi_url local_ip)
      (Some (DigestAuth "admin" local_password)) in
  (∀ r,
     fetch.1 = Ok r ->
     status r ∈ STATUS
     ∨ ∃ text data field,
         reply = LocalResponse 200 text
         ∧ json_loads text = Some data
         ∧ r = {| status := str_lower unicode_lower field; info := ∅ |}
         ∧ ((∃ call_status,
               getitem data "CallStatus" = Ok call_status
               ∧ get call_status "status" (PyStr "unknown") = Ok (PyStr field))
            ∨ getitem data "status" = Ok (PyStr field)))
  ∧ (∀ text d field,
       local_ip ≠ EmptyString -> local_password ≠ EmptyString ->
       reply = LocalResponse 200 text ->
       json_loads text = Some (PyDict d) ->
       (∃ call_status,
          d !! "CallStatus" = Some call_status
          ∧ get call_status "status" (PyStr "unknown") = Ok (PyStr field))
       ∨ (d !! "CallStatus" = None ∧ d !! "status" = Some (PyStr field)) ->
       fetch =
         (Ok {| status := str_lower unicode_lower field; info := ∅ |},
          log ++ [LocalRequest (isapi_url local_ip)
                    (Some (DigestAuth "admin" local_password))])).
Proof.
  intros fetch reply. subst fetch reply. split.
  - intros r.
    assert (Hcloud : ∀ log',
      (run (cloud_fallback json_loads api device_serial) w log').1 = Ok r ->
      status r ∈ STATUS).
    { intros log'. unfold cloud_fallback.
      destruct (client_default_headers api !! "sessionId") as [sid |]; [| done].
      destruct (negb (truthy (PyStr sid))); [done |].
      apply get_call_status_custom_status. }
    destruct (decide (local_ip = EmptyString)) as [Hskip | Hip].
    { rewrite run_fallback_skipped by (by left).
      intros H. left. by eapply Hcloud. }
    destruct (decide (local_password = EmptyString)) as [Hskip | Hpw].
    { rewrite run_fallback_skipped by (by right).
      intros H. left. by eapply Hcloud. }
    rewrite run_fallback_configured, run_get_call_status_isapi,
      isapi_auth_password by done.
    cbn [fst].
    destruct (local_device w log _ _) as [what | status_code text] eqn:Hreply;
      [intros H; left; by eapply Hcloud |].
    destruct (Z.eqb_spec status_code 200) as [-> | Hne];
      [| intros H; left; by eapply Hcloud].
    destruct (isapi_ok_body json_loads unicode_lower text) as [r' | e] eqn:Hbody;
      [| intros H; left; by eapply Hcloud].
    cbn [fst]. intros [= ->].
    apply isapi_ok_body_inv in Hbody as [_ [Hstatus | Hjson]]; [by left |].
    right. apply isapi_json_status_inv in Hjson as (data & field & ? & ? & ?).
    by exists text, data, field.
  - intros text d field Hip Hpw Hreply Hloads Hfield.
    rewrite run_fallback_configured, run_get_call_status_isapi,
      isapi_auth_password by done.
    rewrite Hreply. cbn [fst snd Z.eqb Pos.eqb].
    by rewrite (isapi_ok_body_field _ _ _ _ _ Hloads Hfield).
Qed.

End Fallback.

(** ** The theorems at work on the sample data *)

Lemma code_2003_raises_device_offline_witness :
  run (get_call_status_custom Json.decode (BASE_URL Sample.api) "0123abcd"
         Sample.serial)
    (Sample.scripted (LocalFail "down") [CloudJson Sample.offline] 0) [] =
  (Raise (DeviceOfflineError (PyInt 2003) (PyStr "Device offline")),
   [Sample.first_request]).
Proof.
  exact (code_2003_raises_device_offline Json.decode (BASE_URL Sample.api)
           "0123abcd" Sample.serial
           (Sample.scripted (LocalFail "down") [CloudJson Sample.offline] 0) []
           Sample.offline (PyInt 2003) (PyStr "Device offline")
           eq_refl eq_refl eq_refl).
Defined.

Lemma code_2009_retries_once_witness :
  let w := Sample.scripted (LocalFail "down")
             [CloudJson Sample.network_abnormal; CloudJson Sample.ok]
             1730000000123 in
  run (get_call_status_custom Json.decode (BASE_URL Sample.api) "0123abcd"
         Sample.serial) w [] =
  (Ok Sample.ringing,
   [Sample.first_request;
    CloudRequest (call_status_url (BASE_URL Sample.api) Sample.serial)
      (<["X-Timestamp" := "1730000000123"]>
         (<["User-Agent" := "Hik-Connect/5.0.0 (Android)"]>
            (base_headers "0123abcd")))]).
Proof.
  intros w.
  destruct (code_2009_retries_once Json.decode (BASE_URL Sample.api) "0123abcd"
              Sample.serial w [] Sample.network_abnormal (PyInt 2009)
              (PyStr "Device network abnormal") eq_refl eq_refl eq_refl)
    as (Hlog & _ & Hretry).
  destruct (Hretry Sample.ok (PyInt 200) (PyStr "OK") eq_refl eq_refl)
    as (_ & H200 & _).
  specialize (H200 eq_refl).
  rewrite (surjective_pairing (run _ w [])), Hlog, H200.
  by vm_compute.
Defined.

Lemma code_200_without_data_raises_witness :
  run (get_call_status_custom Json.decode (BASE_URL Sample.api) "0123abcd"
         Sample.serial)
    (Sample.scripted (LocalFail "down") [CloudJson Sample.ok_without_data] 0) [] =
  (Raise (HikConnectApiError (PyInt 0) (PyStr "No data in response")),
   [Sample.first_request]).
Proof.
  exact (proj1 (code_200_without_data_raises Json.decode (BASE_URL Sample.api)
                  "0123abcd" Sample.serial
                  (Sample.scripted (LocalFail "down")
                     [CloudJson Sample.ok_without_data] 0) [])
           Sample.ok_without_data (PyInt 200) (PyStr "OK") eq_refl eq_refl eq_refl
           (ex_intro _ (PyStr EmptyString) (conj eq_refl eq_refl))).
Defined.

Lemma sample_response_data :
  response_data Json.decode Sample.ok = Ok Sample.payload.
Proof. by vm_compute. Defined.

Lemma call_status_code_mapping_witness :
  ∃ r, _parse_call_status_response Json.decode Sample.ok = Ok r
       ∧ status r = "ringing".
Proof.
  destruct (call_status_code_mapping Json.decode Sample.ok Sample.payload 2
              sample_response_data eq_refl) as [Hstatus Hreturns].
  destruct Hreturns as [r Hr]; [by eexists |].
  exists r. split; [done |].
  by apply (Hstatus r Hr).
Defined.

Lemma caller_info_renamed_witness :
  ∃ r, _parse_call_status_response Json.decode Sample.ok = Ok r
       ∧ info r !! "floor_number" = Some (PyInt 3)
       ∧ info r !! "zone_number" = None.
Proof.
  destruct (caller_info_renamed Json.decode Sample.ok Sample.payload _
              sample_response_data eq_refl) as [Hinfo Hreturns].
  destruct (Hreturns _ (PyInt 2) eq_refl eq_refl eq_refl) as [r Hr].
  destruct (Hinfo r Hr) as [Hiff Habsent].
  exists r. split; [done |]. split.
  - apply Hiff. eexists "floorNo", _. split; [| by split].
    unfold CALL_INFO_MAPPING. rewrite !elem_of_cons. auto.
  - eapply (Habsent "zoneNo"); [| done | done].
    unfold CALL_INFO_MAPPING. rewrite !elem_of_cons. auto.
Defined.

Lemma sample_decode_bodies :
  Json.decode body_nested_idle =
    Some (PyDict {[ "CallStatus" := PyDict {[ "status" := PyStr "Idle" ]} ]})
  ∧ Json.decode body_flat_ringing = Some (PyDict {[ "status" := PyStr "RINGING" ]})
  ∧ Json.decode Sample.body_xml_ringing = None.
Proof. by vm_compute. Defined.

Lemma isapi_status_mapping_witness :
  (run (get_call_status_isapi Json.decode lower_str Sample.local_ip "admin"
          Sample.local_password)
     (Sample.scripted (LocalResponse 200 body_nested_idle) [] 0) []).1 =
    Some {| status := "idle"; info := ∅ |}
  ∧ (run (get_call_status_isapi Json.decode lower_str Sample.local_ip "admin"
            Sample.local_password)
       (Sample.scripted (LocalResponse 200 body_flat_ringing) [] 0) []).1 =
      Some {| status := "ringing"; info := ∅ |}
  ∧ (run (get_call_status_isapi Json.decode lower_str Sample.local_ip "admin"
            Sample.local_password)
       (Sample.scripted (LocalResponse 200 Sample.body_xml_ringing) [] 0) []).1 =
      Some {| status := "ringing"; info := ∅ |}.
Proof.
  destruct sample_decode_bodies as (Hnested & Hflat & Hxml).
  split; [| split].
  - destruct (isapi_status_mapping Json.decode lower_str
                (Sample.scripted (LocalResponse 200 body_nested_idle) [] 0) []
                Sample.local_ip "admin" Sample.local_password body_nested_idle
                eq_refl) as (Hidle & _).
    by apply Hidle.
  - destruct (isapi_status_mapping Json.decode lower_str
                (Sample.scripted (LocalResponse 200 body_flat_ringing) [] 0) []
                Sample.local_ip "admin" Sample.local_password body_flat_ringing
                eq_refl) as (_ & Hringing & _).
    by apply Hringing.
  - destruct (isapi_status_mapping Json.decode lower_str
                (Sample.scripted (LocalResponse 200 Sample.body_xml_ringing) [] 0) []
                Sample.local_ip "admin" Sample.local_password
                Sample.body_xml_ringing eq_refl) as (_ & _ & Htext & _).
    by apply Htext.
Defined.

Lemma no_session_no_cloud_request_witness :
  run (get_call_status_with_fallback Json.decode lower_str Sample.api_logged_out
         Sample.serial EmptyString EmptyString)
    (Sample.scripted (LocalFail "down") [CloudJson Sample.ok] 0) [] =
    (Raise not_logged_in, [])
  ∧ run (get_call_status_with_fallback Json.decode lower_str Sample.api_logged_out
           Sample.serial Sample.local_ip Sample.local_password)
      (Sample.scripted (LocalFail "down") [CloudJson Sample.ok] 0) [] =
      (Raise not_logged_in, [Sample.local_request]).
Proof.
  destruct (no_session_no_cloud_request Json.decode lower_str Sample.api_logged_out
              Sample.serial EmptyString EmptyString
              (Sample.scripted (LocalFail "down") [CloudJson Sample.ok] 0) []
              (or_introl eq_refl)) as (_ & Hskipped & _).
  destruct (no_session_no_cloud_request Json.decode lower_str Sample.api_logged_out
              Sample.serial Sample.local_ip Sample.local_password
              (Sample.scripted (LocalFail "down") [CloudJson Sample.ok] 0) []
              (or_introl eq_refl)) as (_ & _ & Hconfigured & _).
  split; [apply Hskipped; by left |]. by apply Hconfigured.
Defined.

Lemma local_failure_falls_through_witness :
  run (get_call_status_with_fallback Json.decode lower_str Sample.api Sample.serial
         Sample.local_ip Sample.local_password)
    (Sample.scripted (LocalResponse 404 EmptyString) [CloudJson Sample.ok] 0) [] =
    (Ok Sample.ringing, [Sample.local_request; Sample.first_request])
  ∧ run (get_call_status_with_fallback Json.decode lower_str Sample.api Sample.serial
           Sample.local_ip Sample.local_password)
      (Sample.scripted (LocalResponse 200 Sample.body_status_number)
         [CloudJson Sample.ok] 0) [] =
      (Ok Sample.ringing, [Sample.local_request; Sample.first_request])
  ∧ run (get_call_status_with_fallback Json.decode lower_str Sample.api Sample.serial
           Sample.local_ip Sample.local_password)
      (Sample.scripted (LocalResponse 200 body_nested_idle)
         [CloudJson Sample.ok] 0) [] =
      (Ok {| status := "idle"; info := ∅ |}, [Sample.local_request]).
Proof.
  assert (Hip : Sample.local_ip ≠ EmptyString) by done.
  assert (Hpw : Sample.local_password ≠ EmptyString) by done.
  split; [| split].
  - destruct (local_failure_falls_through Json.decode lower_str Sample.api Sample.serial
                Sample.local_ip Sample.local_password
                (Sample.scripted (LocalResponse 404 EmptyString)
                   [CloudJson Sample.ok] 0) [] Hip Hpw)
      as (_ & Hstatus & _).
    rewrite (Hstatus 404 EmptyString) by done. by vm_compute.
  - destruct (local_failure_falls_through Json.decode lower_str Sample.api Sample.serial
                Sample.local_ip Sample.local_password
                (Sample.scripted (LocalResponse 200 Sample.body_status_number)
                   [CloudJson Sample.ok] 0) [] Hip Hpw)
      as (_ & _ & Hraises & _).
    rewrite (Hraises Sample.body_status_number AttributeError) by by vm_compute.
    by vm_compute.
  - destruct (local_failure_falls_through Json.decode lower_str Sample.api Sample.serial
                Sample.local_ip Sample.local_password
                (Sample.scripted (LocalResponse 200 body_nested_idle)
                   [CloudJson Sample.ok] 0) [] Hip Hpw)
      as (_ & _ & _ & Hreturns & _).
    apply (Hreturns body_nested_idle); by vm_compute.
Defined.

Lemma fetch_status_in_enumeration_witness :
  status Sample.ringing ∈ STATUS
  ∧ run (get_call_status_with_fallback Json.decode lower_str Sample.api
           Sample.serial Sample.local_ip Sample.local_password)
      (Sample.scripted (LocalResponse 200 Sample.body_ongoing)
         [CloudJson Sample.ok] 0) [] =
    (Ok {| status := "ongoing"; info := ∅ |}, [Sample.local_request]).
Proof.
  split.
  - destruct (proj1 (fetch_status_in_enumeration Json.decode lower_str
                       Sample.api Sample.serial EmptyString EmptyString
                       (Sample.scripted (LocalFail "down")
                          [CloudJson Sample.ok] 0) [])
                Sample.ringing)
      as [Hstatus | (text & data & field & Hreply & _)].
    + by vm_compute.
    + exact Hstatus.
    + discriminate Hreply.
  - apply (proj2 (fetch_status_in_enumeration Json.decode lower_str
                    Sample.api Sample.serial Sample.local_ip
                    Sample.local_password
                    (Sample.scripted (LocalResponse 200 Sample.body_ongoing)
                       [CloudJson Sample.ok] 0) [])
             Sample.body_ongoing {[ "status" := PyStr "Ongoing" ]} "Ongoing");
      [done | done | by vm_compute | by vm_compute |].
    right. by vm_compute.
Defined.

(** ** Where the specification and the code part *)

(** C4: the device answers 200 with a body that is neither JSON nor has a
    status keyword.  The local step gives a result, status unknown, the
    fetch returns it, and the cloud service, which would have answered
    ringing, is never asked. *)
Lemma unparseable_body_is_a_result :
  Json.decode Sample.body_html = None
  ∧ isapi_text_status Sample.body_html = "unknown"
  ∧ run (get_call_status_with_fallback Json.decode lower_str Sample.api Sample.serial
           Sample.local_ip Sample.local_password)
      (Sample.scripted (LocalResponse 200 Sample.body_html)
         [CloudJson Sample.ok] 0) [] =
    (Ok {| status := "unknown"; info := ∅ |}, [Sample.local_request]).
Proof. by vm_compute. Qed.

(** C5: the device answers 200 with the JSON status Ongoing.  The fetch
    returns the status ongoing, which is not in the enumeration. *)
Lemma local_status_outside_enumeration :
  (run (get_call_status_with_fallback Json.decode lower_str Sample.api Sample.serial
          Sample.local_ip Sample.local_password)
     (Sample.scripted (LocalResponse 200 Sample.body_ongoing)
        [CloudJson Sample.ok] 0) []).1 =
    Ok {| status := "ongoing"; info := ∅ |}
  ∧ "ongoing" ∉ STATUS.
Proof.
  split; [by vm_compute |]. unfold STATUS.
  rewrite !elem_of_cons, elem_of_nil. by intros [? | [? | [? | [? | ?]]]].
Qed.

(** C6: no session identifier, the local step configured, and a device
    that answers idle.  The fetch makes a network call, to the device, and
    returns its result: it does not fail. *)
Lemma no_session_local_result :
  no_session Sample.api_logged_out
  ∧ run (get_call_status_with_fallback Json.decode lower_str Sample.api_logged_out
           Sample.serial Sample.local_ip Sample.local_password)
      (Sample.scripted (LocalResponse 200 body_nested_idle) [] 0) [] =
    (Ok {| status := "idle"; info := ∅ |}, [Sample.local_request]).
Proof. split; [by left | by vm_compute]. Qed.

(** C8: a body that is not JSON and has both ringing and idle in it.  The
    keyword idle is tried first, and the local fetch gives status idle. *)
Lemma ringing_body_read_as_idle :
  Json.decode Sample.body_xml_both = None
  ∧ contains "ringing" Sample.body_xml_both = true
  ∧ (run (get_call_status_isapi Json.decode lower_str Sample.local_ip "admin"
            Sample.local_password)
       (Sample.scripted (LocalResponse 200 Sample.body_xml_both) [] 0) []).1 =
    Some {| status := "idle"; info := ∅ |}.
Proof. by vm_compute. Qed.

(** * Further properties of the code *)

(** ** The cloud fetch: the paths without a retry *)

Section CloudPaths.

Variable json_loads : string -> option pyval.
Variables base_url session_id device_serial : string.
Variable w : world.
Variable log : list request.

Let url : string := call_status_url base_url device_serial.
Let first_request : request := CloudRequest url (base_headers session_id).
Let fetch : result fetch_result * list request :=
  run (get_call_status_custom json_loads base_url session_id device_serial) w log.

(** The envelope is read with [get] only: it raises nothing but
    AttributeError, and only on a response or a meta that is no object. *)
Lemma envelope_meta_raises res_json e :
  envelope_meta res_json = Raise e ->
  e = AttributeError
  ∧ ((∀ d, res_json ≠ PyDict d)
     ∨ ∃ d meta, res_json = PyDict d ∧ d !! "meta" = Some meta
                 ∧ ∀ m, meta ≠ PyDict m).
Proof.
  unfold envelope_meta.
  destruct res_json as [| | | | | | d]; try (intros [= <-]; split; [done | by left]).
  cbn [get]. result_simpl.
  destruct (d !! "meta") as [meta |] eqn:Hmeta; [| done]. cbn [default].
  destruct meta as [| | | | | | m]; try done;
    intros [= <-]; (split; [done |]); right; by eexists d, _.
Qed.

(** X1: a first envelope with meta code 200 makes the fetch give what
    parsing that response gives, after the one request: no retry, no
    second look at the envelope. *)
Theorem code_200_parses_first_response res_json code message :
  cloud_service w log url (base_headers session_id) = CloudJson res_json ->
  envelope_meta res_json = Ok (code, message) ->
  eq_int code 200 = true ->
  fetch = (_parse_call_status_response json_loads res_json,
           log ++ [first_request]).
Proof.
  intros Hreply Hmeta Hcode. unfold fetch.
  rewrite (fetch_first_envelope _ _ _ _ _ _ _ _ _ Hreply Hmeta).
  rewrite (eq_int_other _ _ 2003 Hcode), (eq_int_other _ _ 2009 Hcode) by done.
  cbv iota. run_step. by rewrite Hcode.
Qed.

(** X2: a first envelope whose meta code is none of 200, 2003 and 2009
    makes the fetch raise HikConnectApiError with that code and message
    after the one request; an envelope without meta counts as code 0 with
    the message Unknown error. *)
Theorem other_code_raises_api_error res_json :
  cloud_service w log url (base_headers session_id) = CloudJson res_json ->
  (∀ code message,
     envelope_meta res_json = Ok (code, message) ->
     eq_int code 200 = false -> eq_int code 2003 = false ->
     eq_int code 2009 = false ->
     fetch = (Raise (HikConnectApiError code message), log ++ [first_request]))
  ∧ (∀ d, res_json = PyDict d -> d !! "meta" = None ->
     fetch = (Raise (HikConnectApiError (PyInt 0) (PyStr "Unknown error")),
              log ++ [first_request])).
Proof.
  intros Hreply.
  assert (Hother : ∀ code message,
     envelope_meta res_json = Ok (code, message) ->
     eq_int code 200 = false -> eq_int code 2003 = false ->
     eq_int code 2009 = false ->
     fetch = (Raise (HikConnectApiError code message), log ++ [first_request])).
  { intros code message Hmeta H200 H2003 H2009. unfold fetch.
    rewrite (fetch_first_envelope _ _ _ _ _ _ _ _ _ Hreply Hmeta).
    rewrite H2003, H2009. cbv iota. run_step. by rewrite H200. }
  split; [done |]. intros d -> Hnone. apply Hother; [| done ..].
  unfold envelope_meta. cbn [get]. by rewrite Hnone.
Qed.

(** X3: when the first request fails in the HTTP client, or its response
    or the meta of its response is no object, the fetch raises the
    exception of the client, respectively AttributeError, after the one
    request; such failures are never retried. *)
Theorem first_request_failure_is_raised :
  (∀ what,
     cloud_service w log url (base_headers session_id) = CloudFail what ->
     fetch = (Raise (TransportError what), log ++ [first_request]))
  ∧ (∀ res_json,
     cloud_service w log url (base_headers session_id) = CloudJson res_json ->
     ((∀ d, res_json ≠ PyDict d)
      ∨ ∃ d meta, res_json = PyDict d ∧ d !! "meta" = Some meta
                  ∧ ∀ m, meta ≠ PyDict m) ->
     fetch = (Raise AttributeError, log ++ [first_request])).
Proof.
  split.
  - intros what Hreply. unfold fetch, get_call_status_custom.
    run_step. run_step. fold url. by rewrite Hreply.
  - intros res_json Hreply Hshape. unfold fetch, get_call_status_custom.
    run_step. run_step. fold url. rewrite Hreply. run_step.
    assert (envelope_meta res_json = Raise AttributeError) as ->; [| done].
    unfold envelope_meta.
    destruct Hshape as [Hnot | (d & meta & -> & Hmeta & Hnot)].
    + destruct res_json; try done. by destruct (Hnot d).
    + cbn [get]. rewrite Hmeta. cbn [default]. result_simpl.
      destruct meta; try done. by destruct (Hnot d0).
Qed.

(** X4: whatever the cloud answers, the fetch issues the first request and
    at most one more: its log grows by the first request alone, or by the
    first request and the retry with the extra headers, and the latter
    only after a first envelope with code 2009. *)
Theorem cloud_fetch_issues_one_or_two_requests :
  fetch.2 = log ++ [first_request]
  ∨ (fetch.2 =
       log ++ [first_request;
               CloudRequest url
                 (update_extra (base_headers session_id)
                    (clock_millis w (log ++ [first_request])))]
     ∧ ∃ res_json code message,
         cloud_service w log url (base_headers session_id) = CloudJson res_json
         ∧ envelope_meta res_json = Ok (code, message)
         ∧ eq_int code 2009 = true).
Proof.
  unfold fetch.
  destruct (cloud_service w log url (base_headers session_id))
    as [what | res_json] eqn:Hreply.
  { left. unfold get_call_status_custom. run_step. run_step.
    fold url. by rewrite Hreply. }
  destruct (envelope_meta res_json) as [[code message] | e] eqn:Hmeta.
  2: { left. unfold get_call_status_custom. run_step. run_step.
       fold url. rewrite Hreply. run_step. by rewrite Hmeta. }
  destruct (eq_int code 2009) eqn:H2009.
  - right. rewrite (fetch_after_2009 _ _ _ _ _ _ _ _ _ Hreply Hmeta H2009).
    cbn [snd]. split; [by rewrite <- app_assoc |]. by exists res_json, code, message.
  - left. rewrite (fetch_first_envelope _ _ _ _ _ _ _ _ _ Hreply Hmeta).
    fold url. destruct (eq_int code 2003); [done |]. rewrite H2009. run_step.
    by destruct (eq_int code 200).
Qed.

End CloudPaths.

(** ** Parsing: encodings of the payload and payloads that raise *)

Section ParseEdges.

Variable json_loads : string -> option pyval.

(** X5: a payload sent as a JSON text and the same payload sent as an
    embedded value are parsed alike, whenever the value is truthy and no
    string itself. *)
Theorem payload_text_and_value_parse_alike res_text res_value s v :
  get res_text "data" PyNone = Ok (PyStr s) ->
  s ≠ EmptyString ->
  json_loads s = Some v ->
  get res_value "data" PyNone = Ok v ->
  truthy v = true ->
  (∀ s', v ≠ PyStr s') ->
  _parse_call_status_response json_loads res_text =
  _parse_call_status_response json_loads res_value.
Proof.
  intros Htext Hs Hloads Hvalue Htruthy Hnostr.
  unfold _parse_call_status_response, response_data.
  rewrite Htext, Hvalue. result_simpl.
  rewrite (proj2 (truthy_str s) Hs), Htruthy. cbn [negb].
  unfold loads. rewrite Hloads.
  destruct v; try done. by destruct (Hnostr s0).
Qed.

(** X6: the empty object is the payload on which the two encodings part:
    sent as a JSON text it passes the test for data and parses to status
    unknown with an empty caller info; sent as an embedded value it is
    falsy and raises the no data error. *)
Theorem empty_object_payload res_text res_value s :
  get res_text "data" PyNone = Ok (PyStr s) ->
  s ≠ EmptyString ->
  json_loads s = Some (PyDict ∅) ->
  get res_value "data" PyNone = Ok (PyDict ∅) ->
  _parse_call_status_response json_loads res_text =
    Ok {| status := "unknown"; info := ∅ |}
  ∧ _parse_call_status_response json_loads res_value = Raise no_data.
Proof.
  intros Htext Hs Hloads Hvalue.
  unfold _parse_call_status_response, response_data.
  rewrite Htext, Hvalue. result_simpl.
  rewrite (proj2 (truthy_str s) Hs). cbn [negb].
  unfold loads. by rewrite Hloads.
Qed.

(** X7: a payload that is no object, a call status that cannot be hashed,
    and a caller info that is null, a boolean or a number all make parsing
    raise, AttributeError for the first and TypeError for the others: no
    result is returned for them. *)
Theorem malformed_payload_raises res_json data :
  response_data json_loads res_json = Ok data ->
  ((∀ d, data ≠ PyDict d) ->
   _parse_call_status_response json_loads res_json = Raise AttributeError)
  ∧ (∀ code,
       get data "callStatus" (PyInt 0) = Ok code -> hashable code = false ->
       _parse_call_status_response json_loads res_json = Raise TypeError)
  ∧ (∀ code caller_info,
       get data "callStatus" (PyInt 0) = Ok code -> hashable code = true ->
       get data "callerInfo" (PyDict ∅) = Ok caller_info ->
       (caller_info = PyNone ∨ (∃ b, caller_info = PyBool b)
        ∨ (∃ n, caller_info = PyInt n) ∨ (∃ f, caller_info = PyFloat f)) ->
       _parse_call_status_response json_loads res_json = Raise TypeError).
Proof.
  intros Hdata. rewrite (parse_steps _ _ _ Hdata). repeat split.
  - intros Hnot. destruct data; try done. by destruct (Hnot d).
  - intros code -> Hhash. result_simpl. unfold call_status_mapping_get.
    by rewrite Hhash.
  - intros code caller_info -> Hhash -> Hci. result_simpl.
    rewrite call_status_mapping_get_hashable by done. result_simpl.
    by destruct Hci as [-> | [[b ->] | [[n ->] | [f ->]]]].
Qed.

End ParseEdges.

(** ** The local fetch: which field and which keyword decide *)

Lemma lower_ascii_idemp c : lower_ascii (lower_ascii c) = lower_ascii c.
Proof. destruct c as [[] [] [] [] [] [] [] []]; by vm_compute. Qed.

Lemma lower_str_idemp s : lower_str (lower_str s) = lower_str s.
Proof.
  induction s as [| c s IH]; [done |]. simpl. by rewrite lower_ascii_idemp, IH.
Qed.

Section LocalEdges.

Variable json_loads : string -> option pyval.
Variable unicode_lower : string -> string.

(** X8: in a JSON body with an object under CallStatus, that object
    decides alone: its status field lower-cased by [str.lower], or unknown
    when it has none, whatever a status field at top level or a keyword in
    the text says. *)
Theorem call_status_object_decides w log local_ip username password text d cs :
  local_device w log (isapi_url local_ip) (isapi_auth username password) =
    LocalResponse 200 text ->
  json_loads text = Some (PyDict d) ->
  d !! "CallStatus" = Some (PyDict cs) ->
  (cs !! "status" = None ->
   (run (get_call_status_isapi json_loads unicode_lower local_ip username
          password) w log).1 =
     Some {| status := "unknown"; info := ∅ |})
  ∧ (∀ s, cs !! "status" = Some (PyStr s) ->
     (run (get_call_status_isapi json_loads unicode_lower local_ip username
          password) w log).1 =
       Some {| status := str_lower unicode_lower s; info := ∅ |}).
Proof.
  intros Hreply Hloads Hcs.
  rewrite run_get_call_status_isapi, Hreply. cbn [fst Z.eqb Pos.eqb].
  unfold isapi_ok_body, isapi_json_status. rewrite Hloads. cbn [is_in getitem].
  rewrite Hcs, (bool_decide_eq_true_2 (is_Some (Some (PyDict cs)))) by done.
  result_simpl. cbn [get].
  split.
  - by intros ->.
  - by intros s ->.
Qed.

(** X9: a JSON body that is an object with neither CallStatus nor status
    is read by the keywords of its raw text, like a body that is not JSON
    at all. *)
Theorem json_without_status_keys_uses_keywords w log local_ip username
    password text d :
  local_device w log (isapi_url local_ip) (isapi_auth username password) =
    LocalResponse 200 text ->
  json_loads text = Some (PyDict d) ->
  d !! "CallStatus" = None ->
  d !! "status" = None ->
  (run (get_call_status_isapi json_loads unicode_lower local_ip username password) w log).1 =
    Some {| status := isapi_text_status text; info := ∅ |}.
Proof.
  intros Hreply Hloads Hcs Hstatus.
  rewrite run_get_call_status_isapi, Hreply. cbn [fst Z.eqb Pos.eqb].
  unfold isapi_ok_body, isapi_json_status. rewrite Hloads. cbn [is_in].
  rewrite Hcs, Hstatus.
  by rewrite !(bool_decide_eq_false_2 (is_Some None)) by (by intros [? ?]).
Qed.

(** X10: a JSON body whose status field is no string, or whose CallStatus
    is no object, or that is a number, a boolean or null, makes the local
    fetch return None after its one request: the exception is swallowed
    and the caller falls back to the cloud. *)
Theorem unreadable_json_gives_no_local_result w log local_ip username
    password text data :
  local_device w log (isapi_url local_ip) (isapi_auth username password) =
    LocalResponse 200 text ->
  json_loads text = Some data ->
  ((data = PyNone ∨ (∃ b, data = PyBool b) ∨ (∃ n, data = PyInt n)
    ∨ (∃ f, data = PyFloat f))
   ∨ (∃ d v, data = PyDict d ∧ d !! "CallStatus" = Some v ∧ ∀ cs, v ≠ PyDict cs)
   ∨ (∃ d v, data = PyDict d ∧ d !! "CallStatus" = None
             ∧ d !! "status" = Some v ∧ ∀ s, v ≠ PyStr s)) ->
  run (get_call_status_isapi json_loads unicode_lower local_ip username password) w log =
    (None, log ++ [LocalRequest (isapi_url local_ip)
                     (isapi_auth username password)]).
Proof.
  intros Hreply Hloads Hshape.
  rewrite run_get_call_status_isapi, Hreply. cbn [Z.eqb Pos.eqb].
  f_equal. unfold isapi_ok_body, isapi_json_status. rewrite Hloads.
  destruct Hshape as [Hscalar | [(d & v & -> & Hcs & Hnot)
                                 | (d & v & -> & Hcs & Hstatus & Hnot)]].
  - by destruct Hscalar as [-> | [[b ->] | [[n ->] | [f ->]]]].
  - cbn [is_in getitem].
    rewrite Hcs, (bool_decide_eq_true_2 (is_Some (Some v))) by done.
    result_simpl. destruct v; try done. by destruct (Hnot d0).
  - cbn [is_in getitem]. rewrite Hcs, Hstatus.
    rewrite (bool_decide_eq_false_2 (is_Some None)) by (by intros [? ?]).
    rewrite (bool_decide_eq_true_2 (is_Some (Some v))) by done. result_simpl.
    destruct v; try done. by destruct (Hnot s).
Qed.

End LocalEdges.

(** ** The fallback procedure: its requests and its statuses *)

Section FetchShape.

Variable json_loads : string -> option pyval.
Variable unicode_lower : string -> string.

Lemma get_call_status_custom_log_length base_url session_id device_serial w log :
  ∃ new,
    (run (get_call_status_custom json_loads base_url session_id device_serial)
       w log).2 = log ++ new
    ∧ (length new ≤ 2)%nat
    ∧ Forall (λ r, is_cloud_request r = true) new.
Proof.
  set (url := call_status_url base_url device_serial).
  set (h := base_headers session_id).
  destruct (cloud_service w log url h) as [what | res_json] eqn:Hreply.
  { exists [CloudRequest url h]. split; [| split; [simpl; lia | by repeat constructor]].
    unfold get_call_status_custom. run_step. run_step.
    fold url h. by rewrite Hreply. }
  destruct (envelope_meta res_json) as [[code message] | e] eqn:Hmeta.
  2: { exists [CloudRequest url h].
       split; [| split; [simpl; lia | by repeat constructor]].
       unfold get_call_status_custom. run_step. run_step.
       fold url h. rewrite Hreply. run_step. by rewrite Hmeta. }
  destruct (eq_int code 2009) eqn:H2009.
  - rewrite (fetch_after_2009 _ _ _ _ _ _ _ _ _ Hreply Hmeta H2009).
    eexists [_; _]. split; [cbn [snd]; by rewrite <- app_assoc |].
    split; [simpl; lia | by repeat constructor].
  - exists [CloudRequest url h].
    split; [| split; [simpl; lia | by repeat constructor]].
    rewrite (fetch_first_envelope _ _ _ _ _ _ _ _ _ Hreply Hmeta). fold url h.
    destruct (eq_int code 2003); [done |]. rewrite H2009. run_step.
    by destruct (eq_int code 200).
Qed.

Lemma cloud_fallback_log_length api device_serial w log :
  ∃ new,
    (run (cloud_fallback json_loads api device_serial) w log).2 = log ++ new
    ∧ (length new ≤ 2)%nat
    ∧ Forall (λ r, is_cloud_request r = true) new.
Proof.
  unfold cloud_fallback.
  destruct (client_default_headers api !! "sessionId") as [sid |].
  - destruct (negb (truthy (PyStr sid))).
    + exists []. rewrite app_nil_r. repeat split; [simpl; lia | done].
    + apply get_call_status_custom_log_length.
  - exists []. rewrite app_nil_r. repeat split; [simpl; lia | done].
Qed.

(** X11: whatever the device and the cloud answer, one fetch issues at
    most three requests: when both local settings are set, one request to
    the device, first, with the digest credentials of admin; then at most
    two cloud requests; and after a local result no cloud request at all. *)
Theorem fetch_issues_local_then_cloud api device_serial local_ip local_password
    w log :
  let local_part :=
    if truthy (PyStr local_ip) && truthy (PyStr local_password)
    then [LocalRequest (isapi_url local_ip)
            (Some (DigestAuth "admin" local_password))]
    else [] in
  ∃ cloud_part,
    (run (get_call_status_with_fallback json_loads unicode_lower api device_serial
            local_ip local_password) w log).2 = log ++ local_part ++ cloud_part
    ∧ (length cloud_part ≤ 2)%nat
    ∧ Forall (λ r, is_cloud_request r = true) cloud_part
    ∧ (∀ r,
         local_part ≠ [] ->
         (run (get_call_status_isapi json_loads unicode_lower local_ip "admin" local_password)
            w log).1 = Some r ->
         cloud_part = []).
Proof.
  intros local_part. subst local_part.
  destruct (decide (local_ip = EmptyString)) as [-> | Hip].
  { cbn [truthy String.eqb negb andb].
    destruct (cloud_fallback_log_length api device_serial w log)
      as (new & Hlog & Hlen & Hcloud).
    exists new. rewrite run_fallback_skipped by (by left). by repeat split. }
  destruct (decide (local_password = EmptyString)) as [-> | Hpw].
  { rewrite andb_false_r.
    destruct (cloud_fallback_log_length api device_serial w log)
      as (new & Hlog & Hlen & Hcloud).
    exists new. rewrite run_fallback_skipped by (by right). by repeat split. }
  rewrite (proj2 (truthy_str _) Hip), (proj2 (truthy_str _) Hpw). cbn [andb].
  rewrite run_fallback_configured by done.
  destruct (run (get_call_status_isapi json_loads unicode_lower local_ip "admin" local_password)
              w log).1 as [r |] eqn:Hlocal.
  - exists []. rewrite app_nil_r. by repeat split; [simpl; lia | ..].
  - destruct (cloud_fallback_log_length api device_serial w
                (log ++ [LocalRequest (isapi_url local_ip)
                           (Some (DigestAuth "admin" local_password))]))
      as (new & Hlog & Hlen & Hcloud).
    exists new. rewrite Hlog, <- app_assoc. by repeat split.
Qed.

(** Where a result of the fetch comes from: the status table, the keyword
    chain, or a lower-cased field of the device. *)
Lemma fetch_result_origin api device_serial local_ip local_password w log r :
  (run (get_call_status_with_fallback json_loads unicode_lower api device_serial
          local_ip local_password) w log).1 = Ok r ->
  status r ∈ STATUS ∨ ∃ field, status r = str_lower unicode_lower field.
Proof.
  assert (Hcloud : ∀ log',
    (run (cloud_fallback json_loads api device_serial) w log').1 = Ok r ->
    status r ∈ STATUS).
  { intros log'. unfold cloud_fallback.
    destruct (client_default_headers api !! "sessionId") as [sid |]; [| done].
    destruct (negb (truthy (PyStr sid))); [done |].
    apply get_call_status_custom_status. }
  destruct (decide (local_ip = EmptyString)) as [Hskip | Hip].
  { rewrite run_fallback_skipped by (by left). intros H. left. by eapply Hcloud. }
  destruct (decide (local_password = EmptyString)) as [Hskip | Hpw].
  { rewrite run_fallback_skipped by (by right). intros H. left. by eapply Hcloud. }
  rewrite run_fallback_configured, run_get_call_status_isapi,
    isapi_auth_password by done.
  cbn [fst].
  destruct (local_device w log _ _) as [what | status_code text];
    [intros H; left; by eapply Hcloud |].
  destruct (status_code =? 200); [| intros H; left; by eapply Hcloud].
  destruct (isapi_ok_body json_loads unicode_lower text) as [r' | e] eqn:Hbody;
    [| intros H; left; by eapply Hcloud].
  cbn [fst]. intros [= ->].
  apply isapi_ok_body_inv in Hbody as [_ [Hstatus | Hjson]]; [by left |].
  right. apply isapi_json_status_inv in Hjson as (data & field & _ & -> & _).
  by exists field.
Qed.

(** On ASCII text the lower-casing of the tables is the ASCII one: then
    [str.lower] is the lower-casing of the tables on every text. *)
Lemma str_lower_unicode s :
  (∀ s, isascii s = true -> unicode_lower s = lower_str s) ->
  str_lower unicode_lower s = unicode_lower s.
Proof.
  intros Hascii. unfold str_lower.
  destruct (isascii s) eqn:Hs; [| done]. by rewrite Hascii.
Qed.

(** X12: the status of every result of the fetch, from the device or from
    the cloud, is in lower case, in that [str.lower] leaves it as it is;
    this for a runtime whose lower-casing by the Unicode tables is
    idempotent and, on ASCII text, lower-cases the letters A to Z only. *)
Theorem fetch_status_is_lower_case api device_serial local_ip local_password
    w log r :
  (∀ s, unicode_lower (unicode_lower s) = unicode_lower s) ->
  (∀ s, isascii s = true -> unicode_lower s = lower_str s) ->
  (run (get_call_status_with_fallback json_loads unicode_lower api
          device_serial local_ip local_password) w log).1 = Ok r ->
  str_lower unicode_lower (status r) = status r.
Proof.
  intros Hidem Hascii [Hstatus | [field ->]]%fetch_result_origin.
  - unfold STATUS in Hstatus.
    rewrite !elem_of_cons, elem_of_nil in Hstatus.
    by destruct Hstatus as [-> | [-> | [-> | [-> | []]]]].
  - by rewrite !str_lower_unicode, Hidem.
Qed.

End FetchShape.

(** ** The helpers [_try_endpoint] and [get_device_connection_info] *)

Section EndpointHelpers.

Variable str_format_serial : string -> string -> result string.
Variable json_loads : string -> option pyval.

Lemma run_try_endpoint_body url headers w log :
  run (try_endpoint_body url headers) w log =
  (match cloud_service w log url headers with
   | CloudFail what => Raise (TransportError what)
   | CloudJson res_json => found_if_200 res_json
   end, log ++ [CloudRequest url headers]).
Proof.
  unfold try_endpoint_body. run_step.
  by destruct (cloud_service w log url headers) as [what | res_json].
Qed.

(** [found_if_200] finds the response itself, and only under an envelope
    that the fetch reads as code 200. *)
Lemma found_if_200_inv res_json found :
  found_if_200 res_json = Ok (Some found) ↔
  found = res_json
  ∧ ∃ code message,
      envelope_meta res_json = Ok (code, message) ∧ eq_int code 200 = true.
Proof.
  unfold found_if_200, envelope_meta.
  destruct (get res_json "meta" (PyDict ∅)) as [meta | e]; result_simpl.
  2: { split; [done | by intros (_ & ? & ? & ? & _)]. }
  destruct meta as [| | | | | | m]; cbn [get]; result_simpl;
    try (split; [done | by intros (_ & ? & ? & ? & _)]).
  destruct (eq_int (default (PyInt 0) (m !! "code")) 200) eqn:Hcode.
  - split.
    + intros [= <-]. split; [done |]. by eexists _, _.
    + by intros [-> _].
  - split; [done |]. intros (_ & code & message & [= <- _] & H200). congruence.
Qed.

(** X13: once the URL is formatted, [_try_endpoint] issues exactly one
    request, to the base URL followed by the formatted endpoint, with the
    plain headers or, on demand, the extra ones; it never raises; and it
    returns a response exactly when that response came back with an
    envelope of code 200, so that the codes 2003 and 2009, a failed
    request and a malformed envelope all give None. *)
Theorem try_endpoint_finds_code_200 (base_url endpoint session_id
    device_serial : string) (use_extra_headers : bool) (w : world)
    (log : list request) (path : string) :
  str_format_serial endpoint device_serial = Ok path ->
  let headers :=
    if use_extra_headers
    then update_extra (base_headers session_id) (clock_millis w log)
    else base_headers session_id in
  let outcome :=
    run (_try_endpoint str_format_serial base_url endpoint session_id
           device_serial use_extra_headers) w log in
  outcome.2 = log ++ [CloudRequest (base_url +:+ path) headers]
  ∧ (∃ found, outcome.1 = Ok found)
  ∧ ∀ res_json,
      outcome.1 = Ok (Some res_json) ↔
      cloud_service w log (base_url +:+ path) headers = CloudJson res_json
      ∧ ∃ code message,
          envelope_meta res_json = Ok (code, message) ∧ eq_int code 200 = true.
Proof.
  intros Hformat headers outcome. subst outcome. unfold _try_endpoint.
  run_step. rewrite Hformat. cbv beta iota.
  assert (Hheaders : run (_get_headers session_id use_extra_headers) w log =
                     (Ok headers, log)) by (by destruct use_extra_headers).
  rewrite run_task_bind, Hheaders. cbn [fst snd].
  rewrite run_prog_bind, run_try_endpoint_body. cbn [fst snd].
  destruct (cloud_service w log (base_url +:+ path) headers)
    as [what | res_json]; cbn [run fst snd].
  { split; [done |]. split; [by eexists |]. intros res. split; [done |].
    by intros [? _]. }
  pose proof (found_if_200_inv res_json) as Hfound.
  destruct (found_if_200 res_json) as [found | e]; cbn [run fst snd].
  - split; [done |]. split; [by eexists |]. intros res. split.
    + intros [= ->]. by destruct (proj1 (Hfound res) eq_refl) as [-> Henv].
    + intros [[= <-] Henv]. apply (Hfound res_json). by split.
  - split; [done |]. split; [by eexists |]. intros res. split; [done |].
    intros [[= <-] Henv].
    discriminate (proj2 (Hfound res_json) (conj eq_refl Henv)).
Qed.

(** X14: what [_try_endpoint] finds on the first of the listed endpoints
    with the plain headers is what the fetch parses: in the same world
    the fetch makes that same single request and gives the parse of the
    response found. *)
Theorem try_endpoint_agrees_with_fetch base_url session_id device_serial w log
    endpoint res_json :
  CALL_STATUS_ENDPOINTS !! 0%nat = Some endpoint ->
  str_format_serial endpoint device_serial =
    Ok ("/v3/devconfig/v1/call/" +:+ device_serial +:+ "/status") ->
  (run (_try_endpoint str_format_serial base_url endpoint session_id
          device_serial false) w log).1 = Ok (Some res_json) ->
  run (get_call_status_custom json_loads base_url session_id device_serial) w log =
  (_parse_call_status_response json_loads res_json,
   (run (_try_endpoint str_format_serial base_url endpoint session_id
           device_serial false) w log).2).
Proof.
  intros _ Hformat. unfold _try_endpoint.
  run_step. rewrite Hformat. cbv beta iota. run_step.
  rewrite run_prog_bind, run_try_endpoint_body. cbn [fst snd].
  fold (call_status_url base_url device_serial).
  destruct (cloud_service w log (call_status_url base_url device_serial)
              (base_headers session_id)) as [what | res] eqn:Hreply; [done |].
  pose proof (found_if_200_inv res res_json) as Hfound.
  destruct (found_if_200 res) as [found | e]; cbn [run fst snd]; [| done].
  intros [= ->].
  destruct (proj1 Hfound eq_refl) as (-> & code & message & Hmeta & H200).
  rewrite (fetch_first_envelope _ _ _ _ _ _ _ _ _ Hreply Hmeta).
  rewrite (eq_int_other _ _ 2003 H200), (eq_int_other _ _ 2009 H200) by done.
  cbv iota. run_step. by rewrite H200.
Qed.

(** X15: [get_device_connection_info] issues exactly one request, to the
    page list with the plain headers, and never raises: it returns the
    connectionInfos of a response that is an object, whatever the code of
    its envelope, and the empty dictionary when the object has none, when
    the response is no object, and when the request fails. *)
Theorem connection_info_never_raises base_url session_id w log :
  let request := CloudRequest (pagelist_url base_url) (base_headers session_id) in
  let reply :=
    cloud_service w log (pagelist_url base_url) (base_headers session_id) in
  let outcome := run (get_device_connection_info base_url session_id) w log in
  outcome.2 = log ++ [request]
  ∧ (∃ connection_infos, outcome.1 = Ok connection_infos)
  ∧ (∀ d v, reply = CloudJson (PyDict d) -> d !! "connectionInfos" = Some v ->
     outcome.1 = Ok v)
  ∧ (∀ d, reply = CloudJson (PyDict d) -> d !! "connectionInfos" = None ->
     outcome.1 = Ok (PyDict ∅))
  ∧ (∀ res_json, reply = CloudJson res_json -> (∀ d, res_json ≠ PyDict d) ->
     outcome.1 = Ok (PyDict ∅))
  ∧ (∀ what, reply = CloudFail what -> outcome.1 = Ok (PyDict ∅)).
Proof.
  intros request reply outcome. subst outcome. unfold get_device_connection_info.
  run_step. rewrite run_prog_bind. unfold connection_info_body.
  run_step. fold reply.
  destruct reply as [what | res_json] eqn:Hreply; cbn [run fst snd].
  { repeat split; try done; by eexists. }
  run_step.
  destruct res_json as [| | | | | | d]; cbn [dict_keys run fst snd];
    try (repeat split; try done; [by eexists | by intros d [= <-] ..]).
  run_step. cbn [get]. rewrite run_mret. cbn [run fst snd].
  repeat split; try done.
  - by eexists.
  - intros d' v [= <-] ->. done.
  - intros d' [= <-] ->. done.
  - intros res [= <-] Hnot. by destruct (Hnot d).
Qed.

End EndpointHelpers.

(** ** The sensor: what an update changes, fires and logs *)

Section SensorUpdates.

Variable DOMAIN : string.
Variable format_value : pyval -> string.

Local Abbreviation async_update := (Sensor.async_update DOMAIN format_value).
Local Abbreviation async_updates := (Sensor.async_updates DOMAIN format_value).

(** An update after an exception: what it leaves and what it changes. *)
Lemma async_update_raised s outcome serial :
  Sensor.device_info s !! "serial" = Some serial ->
  (∀ res, outcome ≠ Sensor.Returned res) ->
  ∃ error logs,
    async_update s outcome = Ok (Sensor.failed s error, [], logs)
    ∧ (length logs ≤ 1)%nat.
Proof.
  intros Hserial Hraised. unfold Sensor.async_update. cbn [getitem].
  rewrite Hserial. result_simpl.
  destruct outcome as [res | code message | code message | code message | | |].
  - by destruct (Hraised res).
  - case_bool_decide; eexists _, _; (split; [done | simpl; lia]).
  - case_bool_decide; eexists _, _; (split; [done | simpl; lia]).
  - case_bool_decide; eexists _, _; (split; [done | simpl; lia]).
  - eexists _, _; (split; [done | simpl; lia]).
  - eexists _, _; (split; [done | simpl; lia]).
  - eexists _, _; (split; [done | simpl; lia]).
Qed.

(** X16: an update that ends in an exception, whichever it is, marks the
    sensor unavailable and keeps what it showed: the value, the attributes
    and the remembered status stay as they were, no event is fired, and at
    most one message is logged. *)
Theorem failed_update_keeps_value s outcome serial :
  Sensor.device_info s !! "serial" = Some serial ->
  (∀ res, outcome ≠ Sensor.Returned res) ->
  ∃ s' logs,
    async_update s outcome = Ok (s', [], logs)
    ∧ (length logs ≤ 1)%nat
    ∧ Sensor.attr_available s' = false
    ∧ Sensor.attr_native_value s' = Sensor.attr_native_value s
    ∧ Sensor.attr_extra_state_attributes s' = Sensor.attr_extra_state_attributes s
    ∧ Sensor.previous_status s' = Sensor.previous_status s
    ∧ Sensor.device_info s' = Sensor.device_info s
    ∧ Sensor.hass s' = Sensor.hass s.
Proof.
  intros Hserial Hraised.
  destruct (async_update_raised s outcome serial Hserial Hraised)
    as (error & logs & Hupdate & Hlogs).
  by exists (Sensor.failed s error), logs.
Qed.

(** An update after a result, with a complete device info. *)
Lemma async_update_returned s res id serial name :
  Sensor.complete s id serial name ->
  async_update s (Sensor.Returned res) =
  if Sensor.hass s
     && negb (bool_decide (Sensor.previous_status s = Some (status res)))
  then Ok (Sensor.updated s res (Some (status res)),
           Sensor.status_events DOMAIN id serial name (status res)
             (Sensor.previous_status s), [])
  else Ok (Sensor.updated s res (Sensor.previous_status s), [], []).
Proof.
  intros (Hid & Hserial & Hname). unfold Sensor.async_update. cbn [getitem].
  rewrite Hserial, Hid, Hname. by result_simpl.
Qed.

(** X17: an update after a result, for a device info with id, serial and
    name, makes the sensor available with the status as its value and the
    caller info as its attributes, forgets the last error and logs
    nothing. *)
Theorem successful_update_shows_result s res id serial name :
  Sensor.complete s id serial name ->
  ∃ s' events,
    async_update s (Sensor.Returned res) = Ok (s', events, [])
    ∧ Sensor.attr_available s' = true
    ∧ Sensor.attr_native_value s' = Some (status res)
    ∧ Sensor.attr_extra_state_attributes s' = info res
    ∧ Sensor.last_error s' = None.
Proof.
  intros Hcomplete. rewrite (async_update_returned _ _ _ _ _ Hcomplete).
  destruct (_ && _); by eexists _, _.
Qed.

(** X18: an update after a result fires events exactly when the sensor has
    a bus and the status differs from the one remembered: then the status
    changed event, followed by the doorbell event if and only if the new
    status is ringing, both with the new and the remembered status in their
    data; and the new status is remembered.  Without a bus nothing is ever
    fired or remembered. *)
Theorem events_fire_on_change s res id serial name :
  Sensor.complete s id serial name ->
  ∃ s' events,
    async_update s (Sensor.Returned res) = Ok (s', events, [])
    ∧ (Sensor.hass s = false ->
       events = [] ∧ Sensor.previous_status s' = Sensor.previous_status s)
    ∧ (Sensor.previous_status s = Some (status res) ->
       events = [] ∧ Sensor.previous_status s' = Sensor.previous_status s)
    ∧ (Sensor.hass s = true -> Sensor.previous_status s ≠ Some (status res) ->
       Sensor.previous_status s' = Some (status res)
       ∧ ∃ data,
           data !! "status" = Some (PyStr (status res))
           ∧ data !! "previous_status" =
               Some (from_option PyStr PyNone (Sensor.previous_status s))
           ∧ data !! "device_id" = Some id
           ∧ data !! "device_serial" = Some serial
           ∧ data !! "device_name" = Some name
           ∧ (status res = "ringing" ->
              events =
                [Sensor.BusEvent (DOMAIN +:+ "_call_status_changed") data;
                 Sensor.BusEvent (DOMAIN +:+ "_doorbell_ringing") data])
           ∧ (status res ≠ "ringing" ->
              events =
                [Sensor.BusEvent (DOMAIN +:+ "_call_status_changed") data])).
Proof.
  intros Hcomplete. rewrite (async_update_returned _ _ _ _ _ Hcomplete).
  destruct (Sensor.hass s) eqn:Hhass; cbn [andb].
  2: { eexists _, _. split; [done |]. by repeat split. }
  case_bool_decide as Hprev; cbn [negb].
  { eexists _, _. split; [done |]. by repeat split. }
  eexists _, _. split; [done |]. split; [done |]. split; [done |].
  intros _ _. split; [done |]. unfold Sensor.status_events.
  exists ({[ "device_id" := id;
             "device_serial" := serial;
             "device_name" := name;
             "status" := PyStr (status res);
             "previous_status" :=
               from_option PyStr PyNone (Sensor.previous_status s) ]}
          : gmap string pyval).
  split; [done |]. split; [done |]. split; [done |]. split; [done |].
  split; [done |]. split; intros Hringing.
  - by rewrite (proj2 (String.eqb_eq _ _) Hringing).
  - by rewrite (proj2 (String.eqb_neq _ _) Hringing).
Qed.

End SensorUpdates.

(** ** The sensor over many polls *)

Section SensorPolls.

Variable DOMAIN : string.
Variable format_value : pyval -> string.

Local Abbreviation async_update := (Sensor.async_update DOMAIN format_value).
Local Abbreviation async_updates := (Sensor.async_updates DOMAIN format_value).

(** The step of an update that ends in an exception. *)
Local Tactic Notation "raised_step" constr(Hcomplete)
    "as" ident(error) ident(logs) ident(Hstep) :=
  match goal with
  | |- context [Sensor.async_update _ _ ?s ?outcome] =>
      destruct (async_update_raised DOMAIN format_value s outcome _
                  (proj1 (proj2 Hcomplete)) ltac:(done))
        as (error & logs & Hstep & _)
  end.

Lemma async_updates_cons s outcome rest s1 events1 logs1 :
  async_update s outcome = Ok (s1, events1, logs1) ->
  async_updates s (outcome :: rest) =
  ('(s2, events2, logs2) ← async_updates s1 rest;
   Ok (s2, events1 ++ events2, logs1 ++ logs2)).
Proof. intros H. cbn [Sensor.async_updates]. by rewrite H. Qed.

(** Polls with one and the same status, once that status is remembered,
    fire nothing. *)
Lemma async_updates_same_status s st id serial name outcomes :
  Sensor.complete s id serial name ->
  Sensor.previous_status s = Some st ->
  Forall (raised_or_status st) outcomes ->
  ∃ s' logs, async_updates s outcomes = Ok (s', [], logs).
Proof.
  intros Hcomplete Hprev Hall. revert s Hcomplete Hprev.
  induction Hall as [| outcome rest Hone _ IH]; intros s Hcomplete Hprev.
  { by eexists _, _. }
  assert (∃ s1 logs1,
            async_update s outcome = Ok (s1, [], logs1)
            ∧ Sensor.complete s1 id serial name
            ∧ Sensor.previous_status s1 = Some st)
    as (s1 & logs1 & Hstep & Hcomplete1 & Hprev1).
  { destruct outcome as [res | | | | | |];
      try (raised_step Hcomplete as error logs Hstep; rewrite Hstep;
           eexists _, _;
           split; [done |]; split; [exact Hcomplete | exact Hprev]).
    simpl in Hone. subst st.
    rewrite (async_update_returned _ _ _ _ _ _ _ Hcomplete), Hprev.
    rewrite bool_decide_eq_true_2 by done. cbn [negb].
    rewrite andb_false_r, <- Hprev.
    eexists _, _. split; [done |]. split; [exact Hcomplete | done]. }
  destruct (IH s1 Hcomplete1 Hprev1) as (s' & logs & Hrest).
  rewrite (async_updates_cons _ _ _ _ _ _ Hstep), Hrest. result_simpl.
  by eexists _, _.
Qed.

(** X19: over any number of polls that end in an exception or in a result
    with one and the same status, the sensor fires the events of a single
    status change, or none at all: a doorbell that keeps ringing, with
    failed polls in between, is announced once. *)
Theorem one_status_is_announced_once s st id serial name outcomes :
  Sensor.complete s id serial name ->
  Forall (raised_or_status st) outcomes ->
  ∃ s' events logs,
    async_updates s outcomes = Ok (s', events, logs)
    ∧ (events = []
       ∨ events =
           Sensor.status_events DOMAIN id serial name st
             (Sensor.previous_status s)).
Proof.
  intros Hcomplete Hall. revert s Hcomplete.
  induction Hall as [| outcome rest Hone Hrest IH]; intros s Hcomplete.
  { eexists _, _, _. split; [done | by left]. }
  destruct outcome as [res | | | | | |];
    try (cbn [Sensor.async_updates];
         raised_step Hcomplete as error logs1 Hstep;
         destruct (IH (Sensor.failed s error) Hcomplete)
           as (s' & events & logs & Hpolls & Hevents);
         rewrite Hstep; result_simpl; rewrite Hpolls; result_simpl;
         eexists _, _, _; split; [done | exact Hevents]).
  simpl in Hone. subst st.
  pose proof (async_update_returned DOMAIN format_value s res id serial name
                Hcomplete) as Hstep.
  destruct (Sensor.hass s
            && negb (bool_decide (Sensor.previous_status s = Some (status res))))
    eqn:Hfire.
  - destruct (async_updates_same_status
                (Sensor.updated s res (Some (status res))) (status res)
                id serial name rest Hcomplete eq_refl Hrest)
      as (s' & logs & Hpolls).
    rewrite (async_updates_cons _ _ _ _ _ _ Hstep), Hpolls. result_simpl.
    eexists _, _, _. split; [done |]. right. by rewrite app_nil_r.
  - destruct (IH (Sensor.updated s res (Sensor.previous_status s)) Hcomplete)
      as (s' & events & logs & Hpolls & Hevents).
    rewrite (async_updates_cons _ _ _ _ _ _ Hstep), Hpolls. result_simpl.
    by eexists _, _, _.
Qed.

(** X20: an exception of the API that repeats is logged once: after the
    first update that ends in it, every further update that ends in the
    same exception changes nothing, fires nothing and logs nothing,
    however many there are. *)
Theorem repeated_api_error_is_logged_once s outcome serial n :
  Sensor.device_info s !! "serial" = Some serial ->
  remembered_error outcome = true ->
  ∃ s1 logs,
    async_update s outcome = Ok (s1, [], logs)
    ∧ (length logs ≤ 1)%nat
    ∧ async_updates s1 (replicate n outcome) = Ok (s1, [], []).
Proof.
  intros Hserial Hremembered.
  assert (Hstable : ∀ s1,
    Sensor.device_info s1 !! "serial" = Some serial ->
    async_update s1 outcome = Ok (s1, [], []) ->
    async_updates s1 (replicate n outcome) = Ok (s1, [], [])).
  { intros s1 _ Hsame. induction n as [| n IH]; [done |].
    cbn [replicate]. rewrite (async_updates_cons _ _ _ _ _ _ Hsame), IH.
    by result_simpl. }
  unfold Sensor.async_update in *. cbn [getitem] in *.
  rewrite Hserial. result_simpl.
  destruct outcome as [| code message | code message | code message | | |];
    try done.
  - case_bool_decide as Herr.
    + destruct s; simpl in *. subst. eexists _, _. split; [done |].
      split; [simpl; lia |]. apply Hstable; [done |].
      cbn. rewrite Hserial. result_simpl. by rewrite bool_decide_eq_true_2.
    + eexists _, _. split; [done |]. split; [simpl; lia |].
      apply Hstable; [done |].
      cbn. rewrite Hserial. result_simpl. by rewrite bool_decide_eq_true_2.
  - case_bool_decide as Herr.
    + destruct s; simpl in *. subst. eexists _, _. split; [done |].
      split; [simpl; lia |]. apply Hstable; [done |].
      cbn. rewrite Hserial. result_simpl. by rewrite bool_decide_eq_true_2.
    + eexists _, _. split; [done |]. split; [simpl; lia |].
      apply Hstable; [done |].
      cbn. rewrite Hserial. result_simpl. by rewrite bool_decide_eq_true_2.
  - case_bool_decide as Herr.
    + destruct s; simpl in *. subst. eexists _, _. split; [done |].
      split; [simpl; lia |]. apply Hstable; [done |].
      cbn. rewrite Hserial. result_simpl. by rewrite bool_decide_eq_true_2.
    + eexists _, _. split; [done |]. split; [simpl; lia |].
      apply Hstable; [done |].
      cbn. rewrite Hserial. result_simpl. by rewrite bool_decide_eq_true_2.
Qed.

End SensorPolls.

(** ** The sensor: error memory, incomplete device info, icon *)

Section SensorEdges.

Variable DOMAIN : string.
Variable format_value : pyval -> string.

Local Abbreviation async_update := (Sensor.async_update DOMAIN format_value).
Local Abbreviation async_updates := (Sensor.async_updates DOMAIN format_value).

(** X21: a successful update clears the memory of the last error, so the
    exception of the API that follows it is logged again, with exactly one
    message; a timeout, a client error or an unexpected exception leaves
    that memory as it is, and is itself logged every time. *)
Theorem success_clears_error_memory s res id serial name outcome :
  Sensor.complete s id serial name ->
  (∃ s1 events,
     async_update s (Sensor.Returned res) = Ok (s1, events, [])
     ∧ (remembered_error outcome = true ->
        ∃ s2 record, async_update s1 outcome = Ok (s2, [], [record])))
  ∧ (remembered_error outcome = false ->
     (∀ r, outcome ≠ Sensor.Returned r) ->
     ∃ s1 record,
       async_update s outcome = Ok (s1, [], [record])
       ∧ Sensor.last_error s1 = Sensor.last_error s).
Proof.
  intros Hcomplete. split.
  - rewrite (async_update_returned _ _ _ _ _ _ _ Hcomplete).
    destruct Hcomplete as (Hid & Hserial & Hname).
    destruct (_ && _); eexists _, _; (split; [done |]); intros Hremembered;
      unfold Sensor.async_update; cbn [getitem Sensor.device_info Sensor.updated];
      rewrite Hserial; result_simpl;
      destruct outcome; try done; cbn [Sensor.last_error];
      rewrite bool_decide_eq_false_2 by done; by eexists _, _.
  - intros Hremembered Hraised.
    destruct Hcomplete as (Hid & Hserial & Hname).
    unfold Sensor.async_update. cbn [getitem]. rewrite Hserial. result_simpl.
    destruct outcome as [r | | | | | |]; try done; [by destruct (Hraised r) | ..];
      by eexists _, _.
Qed.

(** X22: with a bus and a status that differs from the one remembered, a
    device info without id or without name makes the update end in the
    clause for unexpected exceptions: the sensor becomes unavailable, its
    value stays as it was, nothing is fired and the status is not
    remembered, so the next poll meets the same change again.  A device
    info without serial makes the update itself raise KeyError. *)
Theorem incomplete_device_info s res serial :
  (Sensor.device_info s !! "serial" = Some serial ->
   Sensor.hass s = true ->
   Sensor.previous_status s ≠ Some (status res) ->
   Sensor.device_info s !! "id" = None ∨ Sensor.device_info s !! "name" = None ->
   ∃ record,
     async_update s (Sensor.Returned res) =
       Ok (Sensor.failed s (Sensor.last_error s), [], [record])
     ∧ Sensor.log_level record = Sensor.WARNING
     ∧ async_updates s [Sensor.Returned res; Sensor.Returned res] =
         Ok (Sensor.failed s (Sensor.last_error s), [], [record; record]))
  ∧ (Sensor.device_info s !! "serial" = None ->
     ∀ outcome, async_update s outcome = Raise KeyError).
Proof.
  split.
  - intros Hserial Hhass Hprev Hmissing.
    assert (Hstep : ∀ s0,
      Sensor.device_info s0 = Sensor.device_info s ->
      Sensor.hass s0 = true ->
      Sensor.previous_status s0 = Sensor.previous_status s ->
      Sensor.last_error s0 = Sensor.last_error s ->
      ∃ record,
        async_update s0 (Sensor.Returned res) =
          Ok (Sensor.failed s0 (Sensor.last_error s), [], [record])
        ∧ Sensor.log_level record = Sensor.WARNING
        ∧ record =
            (if Sensor.device_info s !! "id" is Some _
             then Sensor.unexpected serial "KeyError" "'name'"
             else Sensor.unexpected serial "KeyError" "'id'")).
    { intros s0 Hinfo Hhass0 Hprev0 Herr0.
      unfold Sensor.async_update. cbn [getitem].
      rewrite Hinfo, Hserial, Hhass0, Hprev0, Herr0. result_simpl.
      rewrite bool_decide_eq_false_2 by done. cbn [andb negb].
      destruct (Sensor.device_info s !! "id") as [id |] eqn:Hid.
      - destruct Hmissing as [? | ->]; [done |]. by eexists.
      - by eexists. }
    destruct (Hstep s eq_refl Hhass eq_refl eq_refl) as (record & Hone & Hlevel & Hrec).
    exists record. split; [done |]. split; [done |].
    cbn [Sensor.async_updates]. rewrite Hone. result_simpl.
    destruct (Hstep (Sensor.failed s (Sensor.last_error s)) eq_refl Hhass
                eq_refl eq_refl) as (record' & Htwo & _ & Hrec').
    rewrite Htwo. result_simpl. by rewrite Hrec, Hrec'.
  - intros Hserial outcome. unfold Sensor.async_update. cbn [getitem].
    by rewrite Hserial.
Qed.

(** X23: after an update that makes the sensor available, its icon is the
    alert icon exactly when its value is none of the options the sensor
    declares; the status unknown, which the cloud path gives for a code it
    does not know, is none of them. *)
Theorem alert_icon_iff_outside_options s res s' events logs :
  async_update s (Sensor.Returned res) = Ok (s', events, logs) ->
  Sensor.attr_available s' = true ->
  (Sensor.icon s' = "mdi:phone-alert" ↔ status res ∉ Sensor.ATTR_OPTIONS)
  ∧ ("unknown" ∈ STATUS ∧ "unknown" ∉ Sensor.ATTR_OPTIONS).
Proof.
  intros Hupdate Havailable.
  assert (Hvalue : Sensor.attr_native_value s' = Some (status res)).
  { revert Hupdate Havailable. unfold Sensor.async_update.
    destruct (getitem _ "serial") as [serial |]; [| done]. result_simpl.
    destruct (_ && _).
    - destruct (Sensor.device_info s !! "id"), (Sensor.device_info s !! "name");
        by intros [= <- _ _].
    - by intros [= <- _ _]. }
  split.
  - unfold Sensor.icon, Sensor.ATTR_OPTIONS. rewrite Hvalue.
    rewrite !elem_of_cons, elem_of_nil.
    destruct (String.eqb_spec (status res) "idle") as [-> | Hidle];
      [split; [done | intros H; destruct H; by left] |].
    destruct (String.eqb_spec (status res) "ringing") as [-> | Hringing];
      [split; [done | intros H; destruct H; right; by left] |].
    destruct (String.eqb_spec (status res) "call in progress") as [-> | Hcall];
      [split; [done | intros H; destruct H; do 3 right; by left] |].
    destruct (String.eqb_spec (status res) "ongoing") as [-> | Hongoing];
      [split; [done | intros H; destruct H; do 2 right; by left] |].
    cbn [orb]. split; [| done]. intros _ [? | [? | [? | [? | []]]]]; done.
  - unfold STATUS, Sensor.ATTR_OPTIONS. rewrite !elem_of_cons, !elem_of_nil.
    split; [by do 3 right; left |]. by intros [? | [? | [? | [? | []]]]].
Qed.

End SensorEdges.

(** ** Unique ids and the camera *)

Lemma list_ascii_of_string_app (a b : string) :
  list_ascii_of_string (a +:+ b) =
  (list_ascii_of_string a ++ list_ascii_of_string b)%list.
Proof. induction a as [| c a IH]; [done |]. simpl. by rewrite IH. Qed.

Lemma string_app_assoc (a b c : string) : (a +:+ b) +:+ c = a +:+ b +:+ c.
Proof.
  induction a as [| x a IH]; [done |].
  change (String x ((a +:+ b) +:+ c) = String x (a +:+ b +:+ c)).
  by rewrite IH.
Qed.

(** A suffix can be cancelled. *)
Lemma string_app_inv_tail (a b t : string) : a +:+ t = b +:+ t -> a = b.
Proof.
  intros H. apply (f_equal list_ascii_of_string) in H.
  rewrite !list_ascii_of_string_app in H. apply app_inv_tail in H.
  rewrite <- (string_of_list_ascii_of_string a),
    <- (string_of_list_ascii_of_string b).
  by rewrite H.
Qed.

(** Texts that end in different characters differ. *)
Lemma string_app_last_ne (a b : string) (x y : ascii) :
  x ≠ y -> a +:+ String x EmptyString ≠ b +:+ String y EmptyString.
Proof.
  intros Hne H. apply (f_equal list_ascii_of_string) in H.
  rewrite !list_ascii_of_string_app in H. simpl in H.
  by apply app_inj_tail in H as [_ ?].
Qed.

Section UniqueIds.

Variable DOMAIN : string.

(** X24: the unique ids tell the entities apart: two sensors, or two
    cameras, with the same unique id belong to devices with the same id,
    and the unique id of a sensor is never that of a camera, whatever the
    ids of their devices are. *)
Theorem unique_ids_are_unique :
  (∀ s1 s2 u,
     Sensor.unique_id DOMAIN s1 = Ok u -> Sensor.unique_id DOMAIN s2 = Ok u ->
     Sensor.device_info s1 !! "id" = Sensor.device_info s2 !! "id")
  ∧ (∀ c1 c2 u,
       Camera.unique_id DOMAIN c1 = Ok u -> Camera.unique_id DOMAIN c2 = Ok u ->
       Camera.device_info c1 !! "id" = Camera.device_info c2 !! "id")
  ∧ (∀ s c u v,
       Sensor.unique_id DOMAIN s = Ok u -> Camera.unique_id DOMAIN c = Ok v ->
       u ≠ v).
Proof.
  assert (Hinj : ∀ a b t,
    DOMAIN +:+ "-" +:+ a +:+ "-" +:+ t = DOMAIN +:+ "-" +:+ b +:+ "-" +:+ t ->
    a = b).
  { intros a b t H. do 2 apply String.app_inj in H.
    by apply string_app_inv_tail in H. }
  split; [| split].
  - intros s1 s2 u. unfold Sensor.unique_id. cbn [getitem].
    destruct (Sensor.device_info s1 !! "id") as [[| | | | id1 | |] |]; try done.
    destruct (Sensor.device_info s2 !! "id") as [[| | | | id2 | |] |]; try done.
    result_simpl. intros [= <-] [= H]. apply Hinj in H. by subst.
  - intros c1 c2 u. unfold Camera.unique_id. cbn [getitem].
    destruct (Camera.device_info c1 !! "id") as [[| | | | id1 | |] |]; try done.
    destruct (Camera.device_info c2 !! "id") as [[| | | | id2 | |] |]; try done.
    result_simpl. intros [= <-] [= H]. apply Hinj in H. by subst.
  - intros s c u v. unfold Sensor.unique_id, Camera.unique_id. cbn [getitem].
    destruct (Sensor.device_info s !! "id") as [[| | | | id1 | |] |]; try done.
    destruct (Camera.device_info c !! "id") as [[| | | | id2 | |] |]; try done.
    result_simpl. intros [= <-] [= <-] H.
    apply (string_app_last_ne
             (DOMAIN +:+ "-" +:+ id1 +:+ "-" +:+ "call-statu")
             (DOMAIN +:+ "-" +:+ id2 +:+ "-" +:+ "camer") "s" "a");
      [done |].
    rewrite !string_app_assoc. exact H.
Qed.

End UniqueIds.

Section CameraImage.

Variable json_loads : string -> option pyval.
Variable unicode_lower : string -> string.

(** X25: [async_camera_image] issues exactly one request, to the picture
    of channel 101 on the local address, always with the digest
    credentials of the camera, even for an empty password; it gives the
    body of a response with status 200 and None for every other status
    and for a request that fails. *)
Theorem camera_image_of_status_200 c w log :
  let request :=
    LocalRequest (Camera.picture_url (Camera.local_ip c))
      (Some (DigestAuth (Camera.username c) (Camera.local_password c))) in
  let reply :=
    local_device w log (Camera.picture_url (Camera.local_ip c))
      (Some (DigestAuth (Camera.username c) (Camera.local_password c))) in
  let outcome := run (Camera.async_camera_image c) w log in
  outcome.2 = log ++ [request]
  ∧ (∀ content, outcome.1 = Some content ↔ reply = LocalResponse 200 content).
Proof.
  intros request reply outcome. subst outcome.
  unfold Camera.async_camera_image. rewrite run_prog_bind. cbn [trigger run answer fst snd].
  fold reply. destruct reply as [what | status_code body]; cbn [run fst snd].
  { split; [done |]. by intros content. }
  destruct (Z.eqb_spec status_code 200) as [-> | Hne]; cbn [run fst snd].
  - split; [done |]. intros content. split; by intros [= ->].
  - split; [done |]. intros content. split; [done |]. by intros [= ? _].
Qed.

(** X26: the cameras are set up exactly when the fetch of the sensors
    goes to the device first: with both local settings set there is one
    camera for each device, named admin, and a fetch with these settings
    starts with the local request, under the credentials the cameras use;
    with a setting missing there is no camera, and the fetch makes no
    local request. *)
Theorem cameras_follow_local_configuration devices local_ip local_password
    api device_serial w log :
  (local_ip ≠ EmptyString -> local_password ≠ EmptyString ->
   Camera.async_setup_entry devices local_ip local_password =
     (λ device_info, Camera.init device_info local_ip local_password) <$> devices
   ∧ (∀ c, c ∈ Camera.async_setup_entry devices local_ip local_password ->
      ∃ rest,
        (run (get_call_status_with_fallback json_loads unicode_lower api device_serial
                local_ip local_password) w log).2 =
        log ++ LocalRequest (isapi_url local_ip)
                 (Some (DigestAuth (Camera.username c) (Camera.local_password c)))
               :: rest))
  ∧ (local_ip = EmptyString ∨ local_password = EmptyString ->
     Camera.async_setup_entry devices local_ip local_password = []
     ∧ ∃ new,
         (run (get_call_status_with_fallback json_loads unicode_lower api device_serial
                 local_ip local_password) w log).2 = log ++ new
         ∧ Forall (λ r, is_cloud_request r = true) new).
Proof.
  split.
  - intros Hip Hpw. unfold Camera.async_setup_entry.
    rewrite (proj2 (truthy_str _) Hip), (proj2 (truthy_str _) Hpw). cbn [negb orb].
    split; [done |]. intros c (device_info & -> & _)%list_elem_of_fmap.
    cbn [Camera.init Camera.username Camera.local_password].
    rewrite run_fallback_configured by done.
    destruct (run (get_call_status_isapi json_loads unicode_lower local_ip "admin" local_password)
                w log).1.
    + by exists [].
    + destruct (cloud_fallback_log json_loads api device_serial w
                  (log ++ [LocalRequest (isapi_url local_ip)
                             (Some (DigestAuth "admin" local_password))]))
        as (new & -> & _).
      exists new. by rewrite <- app_assoc.
  - intros Hskip. split.
    + unfold Camera.async_setup_entry.
      destruct Hskip as [-> | ->]; [done |]. by rewrite orb_true_r.
    + rewrite run_fallback_skipped by done. apply cloud_fallback_log.
Qed.

End CameraImage.

(** ** The further properties at work on the sample data *)

Lemma code_200_parses_first_response_witness :
  run (get_call_status_custom Json.decode (BASE_URL Sample.api) "0123abcd"
         Sample.serial)
    (Sample.scripted (LocalFail "down") [CloudJson Sample.ok] 0) [] =
  (Ok Sample.ringing, [Sample.first_request]).
Proof.
  rewrite (code_200_parses_first_response Json.decode (BASE_URL Sample.api)
             "0123abcd" Sample.serial
             (Sample.scripted (LocalFail "down") [CloudJson Sample.ok] 0) []
             Sample.ok (PyInt 200) (PyStr "OK") eq_refl eq_refl eq_refl).
  by vm_compute.
Defined.

Lemma other_code_raises_api_error_witness :
  run (get_call_status_custom Json.decode (BASE_URL Sample.api) "0123abcd"
         Sample.serial)
    (Sample.scripted (LocalFail "down") [CloudJson Example.server_busy] 0) [] =
  (Raise (HikConnectApiError (PyInt 5000) (PyStr "Server busy")),
   [Sample.first_request]).
Proof.
  exact (proj1 (other_code_raises_api_error Json.decode (BASE_URL Sample.api)
                  "0123abcd" Sample.serial
                  (Sample.scripted (LocalFail "down")
                     [CloudJson Example.server_busy] 0) []
                  Example.server_busy eq_refl)
           (PyInt 5000) (PyStr "Server busy") eq_refl eq_refl eq_refl eq_refl).
Defined.

Lemma first_request_failure_is_raised_witness :
  run (get_call_status_custom Json.decode (BASE_URL Sample.api) "0123abcd"
         Sample.serial)
    (Sample.scripted (LocalFail "down") [CloudFail "connection reset"] 0) [] =
  (Raise (TransportError "connection reset"), [Sample.first_request]).
Proof.
  exact (proj1 (first_request_failure_is_raised Json.decode
                  (BASE_URL Sample.api) "0123abcd" Sample.serial
                  (Sample.scripted (LocalFail "down")
                     [CloudFail "connection reset"] 0) [])
           "connection reset" eq_refl).
Defined.

Lemma payload_text_and_value_parse_alike_witness :
  _parse_call_status_response Json.decode Sample.ok =
  _parse_call_status_response Json.decode Example.ok_embedded.
Proof.
  apply (payload_text_and_value_parse_alike Json.decode Sample.ok
           Example.ok_embedded Sample.payload_text Sample.payload);
    by vm_compute.
Defined.

Lemma empty_object_payload_witness :
  _parse_call_status_response Json.decode Example.empty_object_text =
    Ok Example.unknown
  ∧ _parse_call_status_response Json.decode Example.empty_object_value =
      Raise no_data.
Proof.
  apply (empty_object_payload Json.decode Example.empty_object_text
           Example.empty_object_value "{}"); by vm_compute.
Defined.

Lemma malformed_payload_raises_witness :
  _parse_call_status_response Json.decode Example.caller_info_null =
  Raise TypeError.
Proof.
  destruct (malformed_payload_raises Json.decode Example.caller_info_null
              (PyDict {[ "callStatus" := PyInt 1; "callerInfo" := PyNone ]})
              eq_refl) as (_ & _ & Hcaller).
  apply (Hcaller (PyInt 1) PyNone); try done. by left.
Defined.

Lemma call_status_object_decides_witness :
  (run (get_call_status_isapi Json.decode lower_str Sample.local_ip "admin"
          Sample.local_password)
     (Sample.scripted (LocalResponse 200 Example.body_both_fields) [] 0) []).1 =
  Some {| status := "ringing"; info := ∅ |}.
Proof.
  destruct (call_status_object_decides Json.decode lower_str
              (Sample.scripted (LocalResponse 200 Example.body_both_fields) [] 0)
              [] Sample.local_ip "admin" Sample.local_password
              Example.body_both_fields
              {[ "CallStatus" := PyDict {[ "status" := PyStr "Ringing" ]};
                 "status" := PyStr "idle" ]}
              {[ "status" := PyStr "Ringing" ]} eq_refl)
    as [_ Hfield]; [by vm_compute | done |].
  by apply (Hfield "Ringing").
Defined.

Lemma json_without_status_keys_uses_keywords_witness :
  (run (get_call_status_isapi Json.decode lower_str Sample.local_ip "admin"
          Sample.local_password)
     (Sample.scripted (LocalResponse 200 Example.body_state_ringing) [] 0) []).1 =
  Some {| status := "ringing"; info := ∅ |}.
Proof.
  rewrite (json_without_status_keys_uses_keywords Json.decode lower_str
             (Sample.scripted (LocalResponse 200 Example.body_state_ringing) [] 0)
             [] Sample.local_ip "admin" Sample.local_password
             Example.body_state_ringing {[ "state" := PyStr "ringing" ]}
             eq_refl); by vm_compute.
Defined.

Lemma unreadable_json_gives_no_local_result_witness :
  run (get_call_status_isapi Json.decode lower_str Sample.local_ip "admin"
         Sample.local_password)
    (Sample.scripted (LocalResponse 200 Sample.body_status_number) [] 0) [] =
  (None, [Sample.local_request]).
Proof.
  apply (unreadable_json_gives_no_local_result Json.decode lower_str
           (Sample.scripted (LocalResponse 200 Sample.body_status_number) [] 0)
           [] Sample.local_ip "admin" Sample.local_password
           Sample.body_status_number (PyDict {[ "status" := PyInt 5 ]}));
    [done | by vm_compute |].
  right. right. by eexists _, (PyInt 5).
Defined.

Lemma fetch_status_is_lower_case_witness :
  str_lower lower_str "ongoing" = "ongoing".
Proof.
  apply (fetch_status_is_lower_case Json.decode lower_str Sample.api
           Sample.serial Sample.local_ip Sample.local_password
           (Sample.scripted (LocalResponse 200 Sample.body_ongoing)
              [CloudJson Sample.ok] 0) []
           {| status := "ongoing"; info := ∅ |});
    [apply lower_str_idemp | done | by vm_compute].
Defined.

Lemma try_endpoint_finds_code_200_witness :
  (run (_try_endpoint Format.format_serial (BASE_URL Sample.api)
          Example.primary_endpoint "0123abcd" Sample.serial false)
     (Sample.scripted (LocalFail "down") [CloudJson Sample.ok] 0) []).1 =
  Ok (Some Sample.ok).
Proof.
  destruct (try_endpoint_finds_code_200 Format.format_serial
              (BASE_URL Sample.api) Example.primary_endpoint "0123abcd"
              Sample.serial false
              (Sample.scripted (LocalFail "down") [CloudJson Sample.ok] 0) []
              ("/v3/devconfig/v1/call/" +:+ Sample.serial +:+ "/status"))
    as (_ & _ & Hfound); [by vm_compute |].
  apply Hfound. split; [done |]. by exists (PyInt 200), (PyStr "OK").
Defined.

Lemma try_endpoint_agrees_with_fetch_witness :
  run (get_call_status_custom Json.decode (BASE_URL Sample.api) "0123abcd"
         Sample.serial)
    (Sample.scripted (LocalFail "down") [CloudJson Sample.ok] 0) [] =
  (Ok Sample.ringing, [Sample.first_request]).
Proof.
  rewrite (try_endpoint_agrees_with_fetch Format.format_serial Json.decode
             (BASE_URL Sample.api) "0123abcd" Sample.serial
             (Sample.scripted (LocalFail "down") [CloudJson Sample.ok] 0) []
             Example.primary_endpoint Sample.ok);
    by vm_compute.
Defined.

Lemma example_sensor_complete :
  Sensor.complete Example.sensor (PyStr "dev1") (PyStr Sample.serial)
    (PyStr "Front door").
Proof. by vm_compute. Qed.

Lemma failed_update_keeps_value_witness :
  ∃ s' logs,
    Sensor.async_update Example.DOMAIN Example.format_value
      Example.sensor_ringing Sensor.RaisedTimeoutError = Ok (s', [], logs)
    ∧ Sensor.attr_available s' = false
    ∧ Sensor.attr_native_value s' = Some "ringing".
Proof.
  destruct (failed_update_keeps_value Example.DOMAIN Example.format_value
              Example.sensor_ringing Sensor.RaisedTimeoutError
              (PyStr Sample.serial))
    as (s' & logs & Hupdate & _ & Havailable & Hvalue & _);
    [by vm_compute | done |].
  by exists s', logs.
Defined.

Lemma successful_update_shows_result_witness :
  ∃ s' events,
    Sensor.async_update Example.DOMAIN Example.format_value Example.sensor
      (Sensor.Returned Sample.ringing) = Ok (s', events, [])
    ∧ Sensor.attr_available s' = true
    ∧ Sensor.attr_native_value s' = Some "ringing".
Proof.
  destruct (successful_update_shows_result Example.DOMAIN Example.format_value
              Example.sensor Sample.ringing _ _ _ example_sensor_complete)
    as (s' & events & Hupdate & Havailable & Hvalue & _).
  by exists s', events.
Defined.

Lemma events_fire_on_change_witness :
  ∃ s' events,
    Sensor.async_update Example.DOMAIN Example.format_value Example.sensor
      (Sensor.Returned Sample.ringing) = Ok (s', events, [])
    ∧ Sensor.previous_status s' = Some "ringing"
    ∧ Sensor.event_type <$> events =
        ["hikconnect_call_status_changed"; "hikconnect_doorbell_ringing"].
Proof.
  destruct (events_fire_on_change Example.DOMAIN Example.format_value
              Example.sensor Sample.ringing _ _ _ example_sensor_complete)
    as (s' & events & Hupdate & _ & _ & Hfire).
  destruct (Hfire eq_refl) as (Hprevious & data & _ & _ & _ & _ & _ & Hringing & _);
    [done |].
  exists s', events. split; [done |]. split; [done |].
  by rewrite (Hringing eq_refl).
Defined.

Lemma one_status_is_announced_once_witness :
  ∃ s' events logs,
    Sensor.async_updates Example.DOMAIN Example.format_value Example.sensor
      Example.ringing_polls = Ok (s', events, logs)
    ∧ (events = []
       ∨ events =
           Sensor.status_events Example.DOMAIN (PyStr "dev1")
             (PyStr Sample.serial) (PyStr "Front door") "ringing" None).
Proof.
  apply (one_status_is_announced_once Example.DOMAIN Example.format_value
           Example.sensor "ringing" _ _ _ Example.ringing_polls
           example_sensor_complete).
  by repeat constructor.
Defined.

Lemma repeated_api_error_is_logged_once_witness :
  ∃ s1 logs,
    Sensor.async_update Example.DOMAIN Example.format_value Example.sensor
      Example.raised_offline = Ok (s1, [], logs)
    ∧ (length logs ≤ 1)%nat
    ∧ Sensor.async_updates Example.DOMAIN Example.format_value s1
        (replicate 5 Example.raised_offline) = Ok (s1, [], []).
Proof.
  apply (repeated_api_error_is_logged_once Example.DOMAIN Example.format_value
           Example.sensor Example.raised_offline (PyStr Sample.serial) 5);
    by vm_compute.
Defined.

Lemma success_clears_error_memory_witness :
  ∃ s1 events,
    Sensor.async_update Example.DOMAIN Example.format_value Example.sensor
      (Sensor.Returned Example.idle) = Ok (s1, events, [])
    ∧ ∃ s2 record,
        Sensor.async_update Example.DOMAIN Example.format_value s1
          Example.raised_offline = Ok (s2, [], [record]).
Proof.
  destruct (success_clears_error_memory Example.DOMAIN Example.format_value
              Example.sensor Example.idle _ _ _ Example.raised_offline
              example_sensor_complete)
    as [(s1 & events & Hupdate & Hlogged) _].
  exists s1, events. split; [done |]. by apply Hlogged.
Defined.

Lemma incomplete_device_info_witness :
  ∃ record,
    Sensor.async_update Example.DOMAIN Example.format_value
      Example.sensor_without_name (Sensor.Returned Sample.ringing) =
      Ok (Sensor.failed Example.sensor_without_name None, [], [record])
    ∧ Sensor.log_level record = Sensor.WARNING.
Proof.
  destruct (proj1 (incomplete_device_info Example.DOMAIN Example.format_value
                     Example.sensor_without_name Sample.ringing
                     (PyStr Sample.serial)))
    as (record & Hupdate & Hlevel & _);
    [by vm_compute | done | done | by right; vm_compute |].
  by exists record.
Defined.

Lemma alert_icon_iff_outside_options_witness :
  Sensor.icon (Sensor.updated Example.sensor Example.unknown (Some "unknown")) =
  "mdi:phone-alert".
Proof.
  destruct (alert_icon_iff_outside_options Example.DOMAIN Example.format_value
              Example.sensor Example.unknown
              (Sensor.updated Example.sensor Example.unknown (Some "unknown"))
              (Sensor.status_events Example.DOMAIN (PyStr "dev1")
                 (PyStr Sample.serial) (PyStr "Front door") "unknown" None)
              [])
    as [[_ Hicon] _]; [by vm_compute | done |].
  apply Hicon. intros Hin.
  repeat (apply elem_of_cons in Hin as [Hin | Hin]; [done |]).
  by apply elem_of_nil in Hin.
Defined.

Lemma cameras_follow_local_configuration_witness :
  Camera.async_setup_entry [Example.device_info] Sample.local_ip
    Sample.local_password = [Example.camera].
Proof.
  destruct (proj1 (cameras_follow_local_configuration Json.decode lower_str
                     [Example.device_info] Sample.local_ip
                     Sample.local_password Sample.api Sample.serial
                     (Sample.scripted (LocalFail "down") [] 0) []))
    as [Hcameras _]; [done | done |].
  exact Hcameras.
Defined.
